(** * The provider development server (dev-server.js)

    A shallow embedding of the Express application set up by [DevServer]:
    its middleware chain, its GET routes and the two helper methods
    [getAvailableProviders] and [getBuildTime].

    What lies outside the JavaScript file is a parameter of the model:
    - the disk is a finite map from path strings to nodes; a regular file
      is represented by its modification time and by the script it holds:
      what evaluating it as a CommonJS module yields, possibly after
      requiring other modules;
    - the platform record gathers [__dirname], [process.env.PORT],
      [path.join], the behaviour of the functions that provider modules
      export, the depth at which nested [require] calls exhaust the stack,
      and the errors Node and Express raise;
    - the [require] cache is the state threaded through every handler.

    Express and Node are modelled with their defaults: routes and mount
    points match their literal components without regard to letter case
    and accept a trailing slash; [express.static] and [res.sendFile] ignore
    hidden files; [require] resolves a path as a file, with the extensions
    [.js], [.json], [.node], or as a directory.

    Scope of the model: GET requests on a POSIX system, given by their
    non-empty path components (held decoded, and assumed to spell the
    literal components of routes without percent-escapes), a trailing-slash
    flag and their parsed query, served one at a time; [module.exports] is
    not null or undefined; modules do not require each other in a cycle;
    [require.resolve] looks at the disk at each call (the table of resolved
    paths that Node keeps next to the module cache is left out); values
    thrown are Error objects; [console] output is left out. *)

From stdpp Require Import gmap strings list.
From Stdlib Require Import ZArith Ascii.

#[local] Set Warnings "-register-all".
Local Open Scope string_scope.
Local Open Scope list_scope.

(** ** JavaScript values *)

Inductive value : Type :=
| VUndefined
| VNull
| VBool (b : bool)
| VNum (n : Z)
| VStr (s : string)
| VArr (items : list value)
| VObj (fields : list (string * value))
| VFun (name : string).

(** ToBoolean, as the [||] operator applies it. *)
Definition truthy (v : value) : bool :=
  match v with
  | VUndefined | VNull => false
  | VBool b => b
  | VNum n => negb (n =? 0)%Z
  | VStr s => negb (String.eqb s "")
  | VArr _ | VObj _ | VFun _ => true
  end.

(** [a || b] *)
Definition js_or (a b : value) : value := if truthy a then a else b.


(** First binding of a key in an ordered property list. *)
Fixpoint assoc (k : string) (l : list (string * value)) : option value :=
  match l with
  | [] => None
  | (k', v) :: rest => if decide (k = k') then Some v else assoc k rest
  end.

(** [o.k] on a plain object given by its property list. *)
Definition field (l : list (string * value)) (k : string) : value :=
  default VUndefined (assoc k l).

(** ** Errors and settlement *)

Record js_error : Type := JsError { message : string; stack : string }.

(** How a computation ends: with a value, with a thrown error (a rejected
    promise under [await]), or never. *)
Inductive settled (A : Type) : Type :=
| Fulfilled (a : A)
| Rejected (e : js_error)
| Pending.
Arguments Fulfilled {A} a.
Arguments Rejected {A} e.
Arguments Pending {A}.

(** ** Loaded modules and the disk *)

(** The value of [module.exports], by what the server observes of it:
    [exports] lists its own enumerable properties in enumeration order
    (what [Object.values] walks), [unlisted] the properties that bracket
    access reaches but enumeration does not show (non-enumerable ones such
    as [__esModule], and inherited ones), and [as_json] is the value seen by
    [res.json]: the object itself when it is a plain object, the array when
    [module.exports] is an array. *)
Record module_exports : Type := MakeModule {
  exports : list (string * value);
  unlisted : list (string * value);
  as_json : value
}.

(** A plain object as [module.exports]. *)
Abbreviation Module fields hidden := (MakeModule fields hidden (VObj fields)).


(** [module[k]] *)
Definition get_prop (m : module_exports) (k : string) : value :=
  match assoc k (exports m) with
  | Some v => v
  | None => field (unlisted m) k
  end.

(** [Object.values(module)] *)
Definition object_values (m : module_exports) : list value :=
  map snd (exports m).

(** [xs[0]] *)
Definition first_item (xs : list value) : value :=
  match xs with [] => VUndefined | x :: _ => x end.

(** The script of a file: it ends with its exports or with an error, or
    it first requires another module, by the absolute path Node hands to
    [require], and goes on with what that module exports. *)
Inductive evaluation : Type :=
| Loads (m : module_exports)
| Fails (e : js_error)
| Requires (dependency : string) (continue : module_exports -> evaluation).


(** The modules a script can end with, whatever its dependencies export. *)
Inductive produces : evaluation -> module_exports -> Prop :=
| produces_loads m : produces (Loads m) m
| produces_requires dependency continue d m :
    produces (continue d) m -> produces (Requires dependency continue) m.

Record dirent : Type := Dirent { d_name : string; d_isDirectory : bool }.

Inductive node : Type :=
| Directory (mtime : string) (entries : list dirent)
| RegularFile (mtime : string) (script : evaluation).

Definition node_mtime (n : node) : string :=
  match n with Directory t _ => t | RegularFile t _ => t end.

(** ** The platform *)

Record platform : Type := Platform {
  dirname : string;                                (* __dirname *)
  env_PORT : value;                                (* process.env.PORT *)
  path_join : list string -> string;               (* path.join *)
  invoke : string -> list value -> settled value;  (* calling an exported function *)
  module_not_found : string -> js_error;           (* raised by require.resolve *)
  scandir_error : string -> js_error;            (* raised by fs.readdirSync off a directory *)
  stat_error : string -> js_error;                   (* raised by fs.statSync *)
  sendfile_refused : string -> js_error;           (* passed on by res.sendFile *)
  stack_limit : nat;                               (* nested require calls the stack holds *)
  stack_overflow : js_error;                       (* raised beyond that depth *)
  now_iso : string                                 (* new Date().toISOString() *)
}.

(** ** Observable effects *)

Inductive event : Type :=
| ExistsSync (p : string)
| StatSync (p : string)
| ReaddirSync (p : string)
| Resolve (p : string)
| Evaluate (p : string)
| Invoke (f : string) (args : list value).

Definition is_invoke (e : event) : bool :=
  match e with Invoke _ _ => true | _ => false end.

(** ** Responses *)

(** [Json] carries the status and the value handed to [res.json], before
    it is serialized; [RawFile] is a file streamed from disk. *)

Inductive response : Type :=
| Json (status : nat) (body : value)
| RawFile (path : string)
| Redirect (status : nat) (location : string).

(** ** The handler monad: [require] cache as state, effects logged,
    exceptions and pending promises as results *)

Definition M (A : Type) : Type :=
  gmap string module_exports ->
  settled A * gmap string module_exports * list event.

Definition ret {A} (a : A) : M A := fun c => (Fulfilled a, c, []).

Definition throw {A} (e : js_error) : M A := fun c => (Rejected e, c, []).

Definition bind {A B} (m : M A) (k : A -> M B) : M B :=
  fun c =>
    match m c with
    | (Fulfilled a, c1, t1) =>
        match k a c1 with (r, c2, t2) => (r, c2, t1 ++ t2) end
    | (Rejected e, c1, t1) => (Rejected e, c1, t1)
    | (Pending, c1, t1) => (Pending, c1, t1)
    end.

(** [try { body } catch (error) { handler }] *)
Definition try_catch {A} (body : M A) (handler : js_error -> M A) : M A :=
  fun c =>
    match body c with
    | (Rejected e, c1, t1) =>
        match handler e c1 with (r, c2, t2) => (r, c2, t1 ++ t2) end
    | other => other
    end.

Definition emit (e : event) : M unit := fun c => (Fulfilled tt, c, [e]).

Definition read_cache : M (gmap string module_exports) :=
  fun c => (Fulfilled c, c, []).

Definition write_cache (c' : gmap string module_exports) : M unit :=
  fun _ => (Fulfilled tt, c', []).

Notation "'let!' x ':=' m 'in' k" := (bind m (fun x => k))
  (at level 10, x name, m at level 100, k at level 200).
Notation "'do!' m 'in' k" := (bind m (fun _ => k))
  (at level 10, m at level 100, k at level 200).

Definition result_of {A} (r : settled A * gmap string module_exports * list event)
  : settled A := r.1.1.
Definition cache_of {A} (r : settled A * gmap string module_exports * list event)
  : gmap string module_exports := r.1.2.
Definition events_of {A} (r : settled A * gmap string module_exports * list event)
  : list event := r.2.

(** ** Strings *)

(** [s.endsWith(suffix)] *)
Definition endsWith (s suffix : string) : bool :=
  let n := String.length s in
  let k := String.length suffix in
  bool_decide (k <= n)%nat && String.eqb (String.substring (n - k) k s) suffix.

Definition hex_digit (n : nat) : ascii :=
  match String.get n "0123456789ABCDEF" with Some a => a | None => "0"%char end.

(** The characters [encodeURIComponent] leaves alone. *)
Definition uri_unreserved (a : ascii) : bool :=
  let n := nat_of_ascii a in
  bool_decide (48 <= n <= 57)%nat || bool_decide (65 <= n <= 90)%nat
  || bool_decide (97 <= n <= 122)%nat
  || bool_decide (a ∈ String.list_ascii_of_string "-_.!~*'()").

(** [encodeURIComponent], on a string held as its UTF-8 bytes. *)
Fixpoint encodeURIComponent (s : string) : string :=
  match s with
  | EmptyString => EmptyString
  | String a rest =>
      if uri_unreserved a then String a (encodeURIComponent rest)
      else
        let n := nat_of_ascii a in
        String "%" (String (hex_digit (n / 16)) (String (hex_digit (n mod 16))
          (encodeURIComponent rest)))
  end.

(** Letter case, as the [i] flag of a route's regular expression ignores
    it: only the ASCII letters are folded. *)
Definition lower_ascii (a : ascii) : ascii :=
  let n := nat_of_ascii a in
  if bool_decide (65 <= n <= 90)%nat then ascii_of_nat (n + 32) else a.

Fixpoint lowercase (s : string) : string :=
  match s with
  | EmptyString => EmptyString
  | String a rest => String (lower_ascii a) (lowercase rest)
  end.

(** [p.split("/")] *)
Fixpoint split_path (p : string) : list string :=
  match p with
  | EmptyString => [EmptyString]
  | String a rest =>
      if bool_decide (a = "/"%char) then EmptyString :: split_path rest
      else match split_path rest with
           | [] => [String a EmptyString]
           | part :: parts => String a part :: parts
           end
  end.

(** A path component that [send] treats as hidden: a name of more than one
    character starting with a dot (this includes [..]). *)
Definition is_dotfile (part : string) : bool :=
  match part with
  | String "." (String _ _) => true
  | _ => false
  end.

(** A path with a hidden component. *)
Definition hidden_path (p : string) : bool := existsb is_dotfile (split_path p).

(** ** Requests *)

Record request : Type := MakeRequest {
  segments : list string;             (* decoded path components *)
  query : list (string * value);      (* req.query *)
  trailing_slash : bool               (* the path ends with a slash *)
}.

(** A request whose path does not end with a slash. *)
Abbreviation Request path q := (MakeRequest path q false).

(** How a path is resolved to a file by [require]. *)
Inductive resolution : Type :=
| Found (filename : string)
| NotFound
| Broken (e : js_error).

(** A script run with a given way to require its dependencies. *)
Fixpoint interpret (require_dependency : string -> M module_exports)
    (s : evaluation) : M module_exports :=
  match s with
  | Loads m => ret m
  | Fails e => throw e
  | Requires dependency continue =>
      let! d := require_dependency dependency in
      interpret require_dependency (continue d)
  end.

(** ** The server *)

Section DevServer.

Variable pf : platform.
Variable disk : gmap string node.

(** Constructor fields. *)
Definition port : value := js_or (env_PORT pf) (VNum 7860).
Definition distDir : string := path_join pf [dirname pf; "dist"].
Definition currentDir : string := path_join pf [dirname pf].

(** *** Node primitives *)

(** [fs.existsSync(p)] *)
Definition existsSync (p : string) : M bool :=
  do! emit (ExistsSync p) in
  ret (match disk !! p with Some _ => true | None => false end).

Definition is_file (p : string) : bool :=
  match disk !! p with Some (RegularFile _ _) => true | _ => false end.

(** The first of the extensions [.js], [.json], [.node] that names a file. *)
Definition try_extensions (base : string) : option string :=
  List.find is_file (map (fun ext => base +:+ ext) [".js"; ".json"; ".node"]).

Definition or_else (first second : option string) : option string :=
  match first with Some f => Some f | None => second end.

(** A directory as a module: the [main] entry of its [package.json], tried
    as a file, with the extensions and as a directory index, and failing
    that the index of the directory itself. *)
Definition try_package (x : string) : resolution :=
  let index := try_extensions (path_join pf [x; "index"]) in
  let found (o : option string) :=
    match o with Some f => Found f | None => NotFound end in
  match disk !! path_join pf [x; "package.json"] with
  | Some (RegularFile _ (Fails e)) => Broken e
  | Some (RegularFile _ (Loads pkg)) =>
      match field (exports pkg) "main" with
      | VStr main =>
          if truthy (VStr main) then
            let y := path_join pf [x; main] in
            found (or_else (if is_file y then Some y else None)
                    (or_else (try_extensions y)
                      (or_else (try_extensions (path_join pf [y; "index"]))
                               index)))
          else found index
      | _ => found index
      end
  | _ => found index
  end.

(** The file an absolute path stands for: the file of that name, else the
    name with an extension, else, for a directory, its package entry. *)
Definition resolve_file (p : string) : resolution :=
  match or_else (if is_file p then Some p else None) (try_extensions p) with
  | Some f => Found f
  | None =>
      match disk !! p with
      | Some (Directory _ _) => try_package p
      | _ => NotFound
      end
  end.

(** [require.resolve(p)] *)
Definition require_resolve (p : string) : M string :=
  do! emit (Resolve p) in
  match resolve_file p with
  | Found filename => ret filename
  | NotFound => throw (module_not_found pf p)
  | Broken e => throw e
  end.

(** [delete require.cache[key]] *)
Definition cache_delete (key : string) : M unit :=
  let! c := read_cache in
  write_cache (delete key c).

(** One call [require(p)], the [require] calls of the script it runs being
    answered by [require_dependency]: a module found in the cache is
    returned as it is; otherwise the file is evaluated, and when that
    succeeds the module is cached. *)
Definition require_with (require_dependency : string -> M module_exports)
    (p : string) : M module_exports :=
  let! filename := require_resolve p in
  let! c := read_cache in
  match c !! filename with
  | Some m => ret m
  | None =>
      do! emit (Evaluate filename) in
      match disk !! filename with
      | Some (RegularFile _ script) =>
          let! m := interpret require_dependency script in
          let! c' := read_cache in
          do! write_cache (<[filename := m]> c') in
          ret m
      | _ => throw (module_not_found pf filename)
      end
  end.

(** [require(p)] with room for [depth] nested calls: the [require] calls
    of a script are answered in the same way, one level down. *)
Fixpoint require_at (depth : nat) : string -> M module_exports :=
  require_with
    (match depth with
     | O => fun _ => throw (stack_overflow pf)
     | S below => require_at below
     end).

(** [require(p)] *)
Definition require (p : string) : M module_exports :=
  require_at (stack_limit pf) p.

(** The two lines that precede every use of a provider file (75 to 76 and
    121 to 122):
    [delete require.cache[require.resolve(p)]; ... = require(p)]. *)
Definition require_fresh (p : string) : M module_exports :=
  let! filename := require_resolve p in
  do! cache_delete filename in
  require p.

(** [await func(...args)] *)
Definition await_call (f : string) (args : list value) : M value :=
  fun c => (invoke pf f args, c, [Invoke f args]).

(** [fs.readdirSync(p, { withFileTypes: true })] *)
Definition readdirSync (p : string) : M (list dirent) :=
  do! emit (ReaddirSync p) in
  match disk !! p with
  | Some (Directory _ entries) => ret entries
  | _ => throw (scandir_error pf p)
  end.

(** [fs.statSync(p).mtime.toISOString()], used on a path that exists. *)
Definition stat_mtime (p : string) : M string :=
  do! emit (StatSync p) in
  match disk !! p with
  | Some n => ret (node_mtime n)
  | None => throw (stat_error pf p)
  end.

(** [res.sendFile(p)] without options or callback, [next] being the rest of
    the chain: a path with a hidden component is refused and a missing file
    fails, and either error is passed on to Express; for a directory the
    request is handed to the next handler. *)
Definition sendFile (p : string) (next : M response) : M response :=
  if hidden_path p then throw (sendfile_refused pf p)
  else
    do! emit (StatSync p) in
    match disk !! p with
    | Some (RegularFile _ _) => ret (RawFile p)
    | Some (Directory _ _) => next
    | None => throw (stat_error pf p)
    end.

(** *** Helper methods *)

Definition getAvailableProviders : M (list string) :=
  let! present := existsSync distDir in
  if negb present then ret []
  else
    let! items := readdirSync distDir in
    ret (map d_name (filter (fun item => d_isDirectory item = true) items)).

Definition getBuildTime : M value :=
  let manifestPath := path_join pf [currentDir; "manifest.json"] in
  let! present := existsSync manifestPath in
  if present then
    let! t := stat_mtime manifestPath in
    ret (VStr t)
  else ret VNull.

(** *** Middleware *)

(** [express.static(root)] with its default options, on the path left after
    the mount point.  A path with a hidden component is passed on.  Without
    a trailing slash, a regular file is streamed, a directory is answered
    with a redirect to the same URL plus a slash (its components as the
    request holds them), and anything else is passed on; with a trailing slash, the [index.html] under the path is
    streamed if it is a file, and anything else is passed on.  [None]
    stands for the call to [next()]. *)
Definition express_static (mount root : string) (rest : list string)
    (slash : bool) : M (option response) :=
  if existsb is_dotfile rest then ret None
  else
    let target := match rest with [] => root | _ => path_join pf (root :: rest) end in
    if slash then
      let index := path_join pf [target; "index.html"] in
      do! emit (StatSync index) in
      match disk !! index with
      | Some (RegularFile _ _) => ret (Some (RawFile index))
      | _ => ret None
      end
    else
      do! emit (StatSync target) in
      match disk !! target with
      | Some (RegularFile _ _) => ret (Some (RawFile target))
      | Some (Directory _ _) =>
          ret (Some (Redirect 301
                 match rest with
                 | [] => mount +:+ "/"
                 | _ => mount +:+ "/" +:+ String.concat "/" rest +:+ "/"
                 end))
      | None => ret None
      end.

(** *** Routes, in registration order *)

(** GET /manifest.json *)
Definition manifest_route (next : M response) : M response :=
  let manifestPath := path_join pf [currentDir; "manifest.json"] in
  let! present := existsSync manifestPath in
  if present then sendFile manifestPath next
  else ret (Json 404 (VObj [("error", VStr "Manifest not found. Run build first.")])).

(** GET /dist/:provider/:file *)
Definition dist_file_route (provider file : string) (next : M response)
  : M response :=
  let filePath := path_join pf [distDir; provider; file] in
  let! present := existsSync filePath in
  let! filePath :=
    if negb present && negb (endsWith filePath ".js") then
      let! withSuffix := existsSync (filePath +:+ ".js") in
      if withSuffix then ret (filePath +:+ ".js") else ret filePath
    else ret filePath in
  let! present := existsSync filePath in
  if present then
    if endsWith filePath ".js" then
      try_catch
        (let! moduleData := require_fresh filePath in
         ret (Json 200 (as_json moduleData)))
        (fun err =>
           ret (Json 500 (VObj [("error", VStr "Failed to load module");
                                ("details", VStr (message err))])))
    else sendFile filePath next
  else
    ret (Json 404 (VObj [("error", VStr ("File not found: " +:+ provider +:+ "/" +:+ file));
                         ("hint", VStr "Make sure to run build first")])).

Definition reserved : list string :=
  ["manifest.json"; "dist"; "build"; "status"; "providers"; "health"].

Definition providerContext : value :=
  VObj [("url", VStr "https://example.com")].

(** The value picked out of the loaded module (lines 126 to 131). *)
Definition select_export (m : module_exports) (functionName : string) : value :=
  let func :=
    js_or (js_or (get_prop m functionName) (get_prop m "default"))
          (first_item (object_values m)) in
  if decide (functionName = "watch") then
    js_or (get_prop m "stream") (get_prop m "default")
  else func.

(** The arguments derived from the query (lines 145 to 168).  The route
    [/:provider/:functionName] has no [query] parameter, so
    [req.params.query] is undefined there. *)
Definition call_arguments (functionName : string) (q : list (string * value))
  : list value :=
  if decide (functionName = "posts") then
    let page := js_or (field q "page") (VNum 1) in
    let filter := js_or (field q "filter") (VStr "") in
    [filter; page; providerContext]
  else if decide (functionName = "search") then
    let query := js_or (field q "query") VUndefined in
    let page := js_or (field q "page") (VNum 1) in
    [query; page; providerContext]
  else if decide (functionName = "stream" \/ functionName = "watch") then
    let id := js_or (field q "id") (field q "link") in
    let type := js_or (field q "type") (VStr "") in
    [id; type; providerContext]
  else if decide (functionName = "catalog") then
    [providerContext]
  else if decide (functionName = "meta") then
    let link := field q "link" in
    [link; providerContext]
  else if decide (functionName = "episodes") then
    let link := js_or (field q "url") (field q "link") in
    [link; providerContext]
  else
    [providerContext].

(** The [try] block of the execution route and its [catch]. *)
Definition execute (filePath functionName : string) (q : list (string * value))
  : M response :=
  try_catch
    (let! module := require_fresh filePath in
     let func := select_export module functionName in
     match func with
     | VFun f =>
         let! result := await_call f (call_arguments functionName q) in
         ret (Json 200 result)
     | data => ret (Json 200 data)
     end)
    (fun error =>
       ret (Json 500 (VObj [("error", VStr (message error));
                            ("stack", VStr (stack error))]))).

(** GET /:provider/:functionName *)
Definition function_route (provider functionName : string)
    (q : list (string * value)) : M response :=
  if decide (provider ∈ reserved) then
    ret (Json 404 (VObj [("error", VStr "Not found")]))
  else
    let filePath := path_join pf [distDir; provider; functionName +:+ ".js"] in
    let! present := existsSync filePath in
    if negb present then
      if decide (functionName = "watch") then
        execute (path_join pf [distDir; provider; "stream.js"]) functionName q
      else
        ret (Json 404 (VObj [("error",
               VStr ("Function " +:+ functionName +:+ " not found for " +:+ provider))]))
    else execute filePath functionName q.

(** GET /:provider/search/:query.  The handler first stores the path
    parameter under [req.query.query], which nothing reads afterwards, and
    then redirects. *)
Definition search_route (provider query : string) : M response :=
  ret (Redirect 302 ("/" +:+ provider +:+ "/search?query=" +:+ encodeURIComponent query)).

(** GET /status *)
Definition status_route : M response :=
  let! providers := getAvailableProviders in
  let! buildTime := getBuildTime in
  ret (Json 200 (VObj [("status", VStr "running");
                       ("port", port);
                       ("providers", VNum (Z.of_nat (length providers)));
                       ("providerList", VArr (map VStr providers));
                       ("buildTime", buildTime)])).

(** GET /providers *)
Definition providers_route : M response :=
  let! providers := getAvailableProviders in
  ret (Json 200 (VArr (map VStr providers))).

(** GET /health *)
Definition health_route : M response :=
  ret (Json 200 (VObj [("status", VStr "healthy"); ("timestamp", VStr (now_iso pf))])).

(** The final 404 handler. *)
Definition not_found_route : M response :=
  ret (Json 404 (VObj [("error", VStr "Not found");
                       ("availableEndpoints",
                        VArr (map VStr ["GET /manifest.json";
                                        "GET /dist/:provider/:file";
                                        "GET /:provider/:function (execute)";
                                        "POST /build";
                                        "GET /status";
                                        "GET /providers";
                                        "GET /health"]))])).

(** A path component against a literal component of a route: equal up to
    the case of ASCII letters. *)
Definition matches (component name : string) : bool :=
  bool_decide (lowercase component = name).

(** A literal route: one fixed path component.  A handler is given the
    rest of the chain, for the case that it calls [next()]. *)
Definition literal (name : string) (h : M response -> M response) (req : request)
  : option (M response -> M response) :=
  match segments req with
  | [s] => if matches s name then Some h else None
  | _ => None
  end.

(** The GET routes of [setupRoutes], in the order they are registered. *)
Definition setupRoutes : list (request -> option (M response -> M response)) :=
  [ literal "manifest.json" manifest_route;
    (fun req => match segments req with
                | [d; provider; file] =>
                    if matches d "dist" then Some (dist_file_route provider file)
                    else None
                | _ => None
                end);
    (fun req => match segments req with
                | [provider; functionName] =>
                    Some (fun _ => function_route provider functionName (query req))
                | _ => None
                end);
    (fun req => match segments req with
                | [provider; s; q] =>
                    if matches s "search" then Some (fun _ => search_route provider q)
                    else None
                | _ => None
                end);
    literal "status" (fun _ => status_route);
    literal "providers" (fun _ => providers_route);
    literal "health" (fun _ => health_route) ].

(** The first route that matches answers, with the routes after it as the
    rest of the chain; the 404 handler comes last. *)
Fixpoint first_match (rs : list (request -> option (M response -> M response)))
    (req : request) : M response :=
  match rs with
  | [] => not_found_route
  | r :: rest =>
      match r req with
      | Some h => h (first_match rest req)
      | None => first_match rest req
      end
  end.

(** What [setupMiddleware] installs, for a GET request: [cors],
    [express.json] and the logger pass the request on; the static files
    under [/dist] answer it or pass it on ([None]). *)
Definition setupMiddleware (req : request) : M (option response) :=
  match segments req with
  | d :: rest =>
      if matches d "dist"
      then express_static ("/" +:+ d) distDir rest (trailing_slash req)
      else ret None
  | [] => ret None
  end.

(** A GET request through the application: the middleware first, then the
    routes. *)
Definition serve (req : request) : M response :=
  let! served := setupMiddleware req in
  match served with
  | Some r => ret r
  | None => first_match setupRoutes req
  end.

End DevServer.

(** ** A concrete installation, for examples *)

(** [path.join] on clean components: the parts separated by slashes. *)
Definition join_clean (parts : list string) : string := String.concat "/" parts.

(** Exported functions that resolve to a record of what they were given;
    [fail] rejects and [stall] never settles. *)
Definition echo (f : string) (args : list value) : settled value :=
  if decide (f = "fail") then Rejected (JsError "upstream unreachable" "Error: upstream unreachable")
  else if decide (f = "stall") then Pending
  else Fulfilled (VObj [("calledAs", VStr f); ("with", VArr args)]).

Definition demo_platform : platform := {|
  dirname := "/srv/vega";
  env_PORT := VUndefined;
  path_join := join_clean;
  invoke := echo;
  module_not_found p := JsError ("Cannot find module '" +:+ p +:+ "'") "Error: MODULE_NOT_FOUND";
  scandir_error p := JsError ("ENOTDIR: not a directory, scandir '" +:+ p +:+ "'") "Error: ENOTDIR";
  stat_error p := JsError ("ENOENT: no such file or directory, stat '" +:+ p +:+ "'") "Error: ENOENT";
  sendfile_refused p := JsError "Not Found" "NotFoundError: Not Found";
  stack_limit := 32;
  stack_overflow := JsError "Maximum call stack size exceeded" "RangeError: Maximum call stack size exceeded";
  now_iso := "2025-01-01T00:00:00.000Z"
|}.

Definition posts_module : module_exports :=
  Module [("posts", VFun "posts")] [("__esModule", VBool true)].

Definition stream_module : module_exports :=
  Module [("stream", VFun "stream")] [("__esModule", VBool true)].

Definition catalog_module : module_exports :=
  Module [("catalog", VArr [VObj [("title", VStr "Trending"); ("filter", VStr "/trending")]]);
          ("genres", VArr [])] [].

Definition demo_disk : gmap string node :=
  list_to_map
    [("/srv/vega/dist",
        Directory "2025-01-01T10:00:00.000Z" [Dirent "demo" true; Dirent "README.md" false]);
     ("/srv/vega/dist/README.md", RegularFile "2025-01-01T10:00:00.000Z"
        (Fails (JsError "Unexpected token" "SyntaxError: Unexpected token")));
     ("/srv/vega/dist/demo",
        Directory "2025-01-01T10:00:00.000Z"
          [Dirent "posts.js" false; Dirent "stream.js" false; Dirent "catalog.js" false]);
     ("/srv/vega/dist/demo/posts.js", RegularFile "2025-01-01T10:00:00.000Z" (Loads posts_module));
     ("/srv/vega/dist/demo/stream.js", RegularFile "2025-01-01T10:00:00.000Z" (Loads stream_module));
     ("/srv/vega/dist/demo/catalog.js", RegularFile "2025-01-01T10:00:00.000Z" (Loads catalog_module));
     ("/srv/vega/manifest.json", RegularFile "2025-01-01T10:00:01.000Z"
        (Fails (JsError "Unexpected token" "SyntaxError: Unexpected token")))].

(** ** Notions used to state the properties *)

(** The reply to an awaited call, as the execution route turns it into a
    response: the resolved value as the body, or the 500 of the [catch]. *)
Definition reply_of (s : settled value) : settled response :=
  match s with
  | Fulfilled v => Fulfilled (Json 200 v)
  | Rejected e =>
      Fulfilled (Json 500 (VObj [("error", VStr (message e)); ("stack", VStr (stack e))]))
  | Pending => Pending
  end.

(** The calls made to exported functions, in order. *)
Definition invocations (t : list event) : list event := filter (fun e => is_invoke e = true) t.

(** The selection read by presence in the export mapping: the export of
    that name, otherwise the default export, otherwise the first export;
    for [watch], the export [stream], otherwise the default export. *)
Definition select_by_presence (m : module_exports) (functionName : string) : value :=
  if decide (functionName = "watch") then
    match assoc "stream" (exports m) with
    | Some v => v
    | None => field (exports m) "default"
    end
  else
    match assoc functionName (exports m) with
    | Some v => v
    | None =>
        match assoc "default" (exports m) with
        | Some v => v
        | None => first_item (object_values m)
        end
    end.

(** Requests served one after the other, each against the disk as it is
    when the request arrives; the result is the cache left behind. *)
Fixpoint cache_after (pf : platform) (history : list (gmap string node * request))
    (c : gmap string module_exports) : gmap string module_exports :=
  match history with
  | [] => c
  | (disk, req) :: later => cache_after pf later (cache_of (serve pf disk req c))
  end.





(** A module whose export [catalog] is null and whose default export is a
    function. *)
Definition null_catalog_module : module_exports :=
  Module [("catalog", VNull); ("default", VFun "load")] [].

(** The provider names listed by [/providers]: the entries of the module
    root that are directories. *)
Definition subdirectories (entries : list dirent) : list string :=
  map d_name (filter (fun item => d_isDirectory item = true) entries).

Definition status_body (pf : platform) (names : list string) (buildTime : value)
  : value :=
  VObj [("status", VStr "running");
        ("port", port pf);
        ("providers", VNum (Z.of_nat (length names)));
        ("providerList", VArr (map VStr names));
        ("buildTime", buildTime)].

(** ** [start]: the address announced for testing from another device *)

(** An entry of [os.networkInterfaces()]. *)
Record network_interface : Type := Iface {
  family : string;
  internal : bool;
  address : string
}.

(** [iface.family === "IPv4" && !iface.internal] *)
Definition external_ipv4 (iface : network_interface) : bool :=
  bool_decide (family iface = "IPv4") && negb (internal iface).

(** The inner loop of [start] (lines 273 to 278): the first external IPv4
    address of one interface replaces [localIp]. *)
Fixpoint scan_addresses (ifaces : list network_interface) (localIp : string)
  : string :=
  match ifaces with
  | [] => localIp
  | iface :: rest =>
      if external_ipv4 iface then address iface
      else scan_addresses rest localIp
  end.

(** The outer loop (lines 272 to 280), over the interfaces in the order of
    [Object.keys]: it stops as soon as [localIp] is no longer the string
    it started with. *)
Fixpoint scan_interfaces (interfaces : list (string * list network_interface))
    (localIp : string) : string :=
  match interfaces with
  | [] => localIp
  | (name, ifaces) :: rest =>
      let localIp := scan_addresses ifaces localIp in
      if bool_decide (localIp <> "localhost") then localIp
      else scan_interfaces rest localIp
  end.

(** [localIp] as [start] prints it. *)
Definition local_ip (interfaces : list (string * list network_interface)) : string :=
  scan_interfaces interfaces "localhost".

(** All addresses, interface after interface. *)
Definition all_addresses (interfaces : list (string * list network_interface))
  : list network_interface :=
  concat (map snd interfaces).

(** ** Further notions *)

(** A postcondition on the result and the effects of a handler, whatever
    the cache it starts from. *)
Definition always {A} (h : M A) (Q : settled A -> list event -> Prop) : Prop :=
  forall c, Q (result_of (h c)) (events_of (h c)).

(** What a handler may do to the cache, entry by entry: leave it, drop it,
    or set it to a module that the script of the file at that path produces
    now. *)
Definition refreshed (disk : gmap string node)
    (c c' : gmap string module_exports) : Prop :=
  forall k, c' !! k = c !! k
            \/ c' !! k = None
            \/ exists t s m, c' !! k = Some m /\ disk !! k = Some (RegularFile t s)
                             /\ produces s m.

(** A cache that holds, for every path it knows, a module that the script
    of the file at that path produces. *)
Definition coherent (disk : gmap string node) (c : gmap string module_exports)
  : Prop :=
  forall k m, c !! k = Some m ->
              exists t s, disk !! k = Some (RegularFile t s) /\ produces s m.

(** A handler that only refreshes the cache. *)
Definition keeps {A} (disk : gmap string node) (h : M A) : Prop :=
  forall c, refreshed disk c (cache_of (h c)).




(** A result that is not an exception left to Express. *)
Definition answers {A} (r : settled A) (t : list event) : Prop :=
  forall e, r <> Rejected e.

(** The statuses a response may carry. *)
Definition known_status (r : response) : Prop :=
  match r with
  | Json s _ => s = 200 \/ s = 404 \/ s = 500
  | Redirect s _ => s = 301 \/ s = 302
  | RawFile _ => True
  end.

(** Undoing the percent-escapes of [encodeURIComponent]. *)
Definition hex_value (a : ascii) : nat :=
  let n := nat_of_ascii a in
  if bool_decide (48 <= n <= 57)%nat then n - 48
  else if bool_decide (65 <= n <= 70)%nat then n - 55
  else 0.

Fixpoint percent_decode (s : string) : string :=
  match s with
  | String "%" (String h (String l rest)) =>
      String (ascii_of_nat (16 * hex_value h + hex_value l)) (percent_decode rest)
  | String a rest => String a (percent_decode rest)
  | EmptyString => EmptyString
  end.


(** An installation whose module root is a regular file. *)
Definition blocked_disk : gmap string node :=
  {["/srv/vega/dist" := RegularFile "2025-01-03T09:00:00.000Z"
                          (Fails (JsError "Unexpected token" "SyntaxError: Unexpected token"))]}.





(** An installation with network interfaces, for examples. *)
Definition demo_interfaces : list (string * list network_interface) :=
  [("lo", [Iface "IPv4" true "127.0.0.1"; Iface "IPv6" true "::1"]);
   ("eth0", [Iface "IPv6" false "fe80::1"; Iface "IPv4" false "192.168.1.20"]);
   ("wlan0", [Iface "IPv4" false "10.0.0.7"])].

(** * Properties *)

(** Closes a decidable closed goal by evaluating its decision. *)
Ltac by_computation := apply (bool_decide_unpack _); vm_compute; exact I.

(** Unfolds the monad and the Node primitives down to cache-passing terms. *)
Ltac run_monad :=
  cbv [try_catch bind read_cache write_cache emit ret throw
       existsSync require require_with require_fresh require_resolve cache_delete
       await_call readdirSync stat_mtime].

(** ** Strings *)





(** ** Selection of the export *)

Lemma assoc_truthy k v (l : list (string * value)) :
  Forall (fun kv => truthy kv.2 = true) l -> assoc k l = Some v -> truthy v = true.
Proof.
  induction 1 as [|[k' v'] l Hhead _ IH]; simpl; [discriminate|].
  destruct (decide (k = k')); [|exact IH].
  intros [= <-]. exact Hhead.
Qed.

Lemma get_prop_listed m k :
  assoc k (unlisted m) = None ->
  get_prop m k = field (exports m) k.
Proof.
  intros Hplain. unfold get_prop, field.
  destruct (assoc k (exports m)); [reflexivity|]. rewrite Hplain. reflexivity.
Qed.

(** What the two assignments to [func] compute, by truthiness. *)
Lemma select_export_by_truthiness m functionName :
  select_export m functionName =
    if decide (functionName = "watch") then
      if truthy (get_prop m "stream") then get_prop m "stream"
      else get_prop m "default"
    else if truthy (get_prop m functionName) then get_prop m functionName
    else if truthy (get_prop m "default") then get_prop m "default"
    else first_item (object_values m).
Proof.
  unfold select_export, js_or.
  destruct (decide (functionName = "watch")); [reflexivity|].
  destruct (truthy (get_prop m functionName)) eqn:E; cbv iota;
    [rewrite E|]; reflexivity.
Qed.

Lemma select_export_present m functionName :
  Forall (fun kv => truthy kv.2 = true) (exports m) ->
  (forall k, k ∈ [functionName; "default"; "stream"] -> assoc k (unlisted m) = None) ->
  select_export m functionName = select_by_presence m functionName.
Proof.
  intros Htruthy Hplain.
  rewrite select_export_by_truthiness. unfold select_by_presence.
  rewrite !get_prop_listed by (apply Hplain; set_solver).
  unfold field.
  destruct (decide (functionName = "watch")).
  - destruct (assoc "stream" (exports m)) as [v|] eqn:E; simpl; [|reflexivity].
    rewrite (assoc_truthy _ _ _ Htruthy E). reflexivity.
  - destruct (assoc functionName (exports m)) as [v|] eqn:E; simpl.
    { rewrite (assoc_truthy _ _ _ Htruthy E). reflexivity. }
    destruct (assoc "default" (exports m)) as [v|] eqn:E'; simpl; [|reflexivity].
    rewrite (assoc_truthy _ _ _ Htruthy E'). reflexivity.
Qed.

(** C3, as amended. The value selected is the first truthy one among the
    property named like the function and the default export, and failing
    both the first export in enumeration order; for [watch] it is the
    property [stream] when truthy, and the default export otherwise.  On a
    module whose exported values are all truthy (and whose export object
    offers nothing else under the names looked up) this is the export of
    that name, otherwise the default export, otherwise the first export; for
    [watch] the export [stream], otherwise the default export. *)
Theorem select_export_priority m functionName :
  (functionName <> "watch" ->
     select_export m functionName =
       if truthy (get_prop m functionName) then get_prop m functionName
       else if truthy (get_prop m "default") then get_prop m "default"
       else first_item (object_values m))
  /\ select_export m "watch" =
       (if truthy (get_prop m "stream") then get_prop m "stream"
        else get_prop m "default")
  /\ (Forall (fun kv => truthy kv.2 = true) (exports m) ->
      (forall k, k ∈ [functionName; "default"; "stream"] -> assoc k (unlisted m) = None) ->
      select_export m functionName = select_by_presence m functionName).
Proof.
  split; [|split].
  - intros Hname. rewrite select_export_by_truthiness.
    rewrite decide_False by exact Hname. reflexivity.
  - rewrite select_export_by_truthiness. reflexivity.
  - apply select_export_present.
Qed.

(** C3, as stated, fails: an export that is present but falsy is passed
    over.  With [catalog] exported as null next to a default function, the
    function is what gets selected, not the export named [catalog]. *)
Lemma falsy_export_passed_over :
  select_by_presence null_catalog_module "catalog" = VNull
  /\ select_export null_catalog_module "catalog" = VFun "load"
  /\ select_export null_catalog_module "catalog"
       <> select_by_presence null_catalog_module "catalog".
Proof. vm_compute. repeat split; discriminate. Qed.

(** ** Resolution of a path by [require] *)


Section Resolution.

Variable pf : platform.
Variable disk : gmap string node.







(** A regular file is resolved to itself. *)
Lemma resolve_file_regular p t s :
  disk !! p = Some (RegularFile t s) -> resolve_file pf disk p = Found p.
Proof.
  intros Hfile. unfold resolve_file, is_file. rewrite Hfile. reflexivity.
Qed.

Lemma require_at_unfold depth p :
  require_at pf disk depth p =
    require_with pf disk
      (match depth with
       | O => fun _ => throw (stack_overflow pf)
       | S below => require_at pf disk below
       end) p.
Proof. destruct depth; reflexivity. Qed.



(** By contrast [require] alone answers from the cache: a module cached
    under the path is returned without looking at the file again. *)
Lemma require_memoizes p c t s stale :
  disk !! p = Some (RegularFile t s) ->
  c !! p = Some stale ->
  require pf disk p c = (Fulfilled stale, c, [Resolve p]).
Proof.
  intros Hfile Hcached. unfold require. rewrite require_at_unfold.
  run_monad. rewrite (resolve_file_regular _ _ _ Hfile). cbv beta iota.
  rewrite Hcached. reflexivity.
Qed.

End Resolution.

(** ** Rules for the handler monad *)

(** *** Handlers that do not depend on the cache *)







(** *** Postconditions on the result and the effects *)

Lemma always_ret {A} (a : A) (Q : settled A -> list event -> Prop) :
  Q (Fulfilled a) [] -> always (ret a) Q.
Proof. intros H c. exact H. Qed.

Lemma always_throw {A} e (Q : settled A -> list event -> Prop) :
  Q (Rejected e) [] -> always (throw e) Q.
Proof. intros H c. exact H. Qed.

Lemma always_emit ev (Q : settled unit -> list event -> Prop) :
  Q (Fulfilled tt) [ev] -> always (emit ev) Q.
Proof. intros H c. exact H. Qed.

Lemma always_bind {A B} (m : M A) (k : A -> M B)
    (Q : settled B -> list event -> Prop) :
  always m (fun r t1 =>
              match r with
              | Fulfilled a => always (k a) (fun r2 t2 => Q r2 (t1 ++ t2))
              | Rejected e => Q (Rejected e) t1
              | Pending => Q Pending t1
              end) ->
  always (bind m k) Q.
Proof.
  intros H c. specialize (H c). unfold bind, result_of, events_of in *.
  destruct (m c) as [[r c1] t1]. simpl in H.
  destruct r as [a|e|]; [|exact H..].
  specialize (H c1). unfold result_of, events_of in H.
  destruct (k a c1) as [[r2 c2] t2]. exact H.
Qed.

Lemma always_try_catch {A} (body : M A) (handler : js_error -> M A)
    (Q : settled A -> list event -> Prop) :
  always body (fun r t1 =>
                 match r with
                 | Rejected e => always (handler e) (fun r2 t2 => Q r2 (t1 ++ t2))
                 | Fulfilled a => Q (Fulfilled a) t1
                 | Pending => Q Pending t1
                 end) ->
  always (try_catch body handler) Q.
Proof.
  intros H c. specialize (H c). unfold try_catch, result_of, events_of in *.
  destruct (body c) as [[r c1] t1]. simpl in H.
  destruct r as [a|e|]; [exact H| |exact H].
  specialize (H c1). unfold result_of, events_of in H.
  destruct (handler e c1) as [[r2 c2] t2]. exact H.
Qed.

Lemma always_weaken {A} (h : M A) (P Q : settled A -> list event -> Prop) :
  always h P -> (forall r t, P r t -> Q r t) -> always h Q.
Proof. intros H HPQ c. apply HPQ, H. Qed.

Lemma invocations_app (t1 t2 : list event) :
  invocations (t1 ++ t2) = invocations t1 ++ invocations t2.
Proof. apply filter_app. Qed.

(** *** What is done to the cache *)

Lemma refreshed_refl disk c : refreshed disk c c.
Proof. intros k. left. reflexivity. Qed.

Lemma refreshed_trans disk c1 c2 c3 :
  refreshed disk c1 c2 -> refreshed disk c2 c3 -> refreshed disk c1 c3.
Proof.
  intros H12 H23 k. destruct (H23 k) as [Hsame | [Hnone | Hfresh]].
  - rewrite Hsame. apply H12.
  - right. left. exact Hnone.
  - right. right. exact Hfresh.
Qed.

Lemma refreshed_delete disk c k : refreshed disk c (delete k c).
Proof.
  intros k'. destruct (decide (k' = k)) as [->|Hk].
  - right. left. apply lookup_delete_eq.
  - left. apply lookup_delete_ne. congruence.
Qed.

Lemma refreshed_insert disk c k t s m :
  disk !! k = Some (RegularFile t s) -> produces s m ->
  refreshed disk c (<[k := m]> c).
Proof.
  intros Hfile Hm k'. destruct (decide (k' = k)) as [->|Hk].
  - right. right. exists t, s, m. rewrite lookup_insert_eq. auto.
  - left. apply lookup_insert_ne. congruence.
Qed.

Lemma refreshed_coherent disk c c' :
  refreshed disk c c' -> coherent disk c -> coherent disk c'.
Proof.
  intros Hstep Hc k m Hk.
  destruct (Hstep k) as [Hsame | [Hnone | (t & s & m' & Hm' & Hfile & Hruns)]].
  - apply Hc. rewrite <- Hsame. exact Hk.
  - congruence.
  - exists t, s. split; [exact Hfile|]. congruence.
Qed.

Lemma keeps_ret {A} disk (a : A) : keeps disk (ret a).
Proof. intros c. apply refreshed_refl. Qed.

Lemma keeps_throw {A} disk e : keeps disk (@throw A e).
Proof. intros c. apply refreshed_refl. Qed.

Lemma keeps_emit disk ev : keeps disk (emit ev).
Proof. intros c. apply refreshed_refl. Qed.

Lemma keeps_bind {A B} disk (m : M A) (k : A -> M B) :
  keeps disk m -> (forall a, keeps disk (k a)) -> keeps disk (bind m k).
Proof.
  intros Hm Hk c. specialize (Hm c). unfold bind, cache_of in *.
  destruct (m c) as [[r c1] t1]. simpl in Hm.
  destruct r as [a| |]; [|exact Hm..].
  specialize (Hk a c1). unfold cache_of in Hk.
  destruct (k a c1) as [[r2 c2] t2]. simpl in *.
  exact (refreshed_trans _ _ _ _ Hm Hk).
Qed.

Lemma keeps_try_catch {A} disk (body : M A) (handler : js_error -> M A) :
  keeps disk body -> (forall e, keeps disk (handler e)) ->
  keeps disk (try_catch body handler).
Proof.
  intros Hm Hk c. specialize (Hm c). unfold try_catch, cache_of in *.
  destruct (body c) as [[r c1] t1]. simpl in Hm.
  destruct r as [a|e|]; [exact Hm| |exact Hm].
  specialize (Hk e c1). unfold cache_of in Hk.
  destruct (handler e c1) as [[r2 c2] t2]. simpl in *.
  exact (refreshed_trans _ _ _ _ Hm Hk).
Qed.

Ltac keep :=
  repeat first
    [ assumption
    | progress cbv beta iota
    | match goal with
      | |- keeps _ (bind _ _) => apply keeps_bind; [|intros ?]
      | |- keeps _ (try_catch _ _) => apply keeps_try_catch; [|intros ?]
      | |- keeps _ (ret _) => apply keeps_ret
      | |- keeps _ (throw _) => apply keeps_throw
      | |- keeps _ (emit _) => apply keeps_emit
      | |- keeps _ (if ?b then _ else _) => destruct b
      | |- keeps _ (match ?x with _ => _ end) => destruct x
      end ].

(** *** The chain of routes *)

(** A property of handlers that holds of the final handler and that every
    route passes on from the rest of the chain holds of the chain. *)
Lemma first_match_all (P : M response -> Prop)
    (rs : list (request -> option (M response -> M response))) req :
  P (not_found_route) ->
  Forall (fun r => forall h, r req = Some h -> forall next, P next -> P (h next)) rs ->
  P (first_match rs req).
Proof.
  intros Hlast. induction 1 as [|r rs Hr _ IH]; simpl; [exact Hlast|].
  destruct (r req) as [h|] eqn:E; [|exact IH].
  apply (Hr h eq_refl). exact IH.
Qed.

Section Facts.

Variable pf : platform.
Variable disk : gmap string node.

(** *** Nested [require] calls *)

Lemma interpret_sound rq s :
  (forall p c, invocations (events_of (rq p c)) = []
               /\ refreshed disk c (cache_of (rq p c))) ->
  forall c,
    invocations (events_of (interpret rq s c)) = []
    /\ refreshed disk c (cache_of (interpret rq s c))
    /\ forall m, result_of (interpret rq s c) = Fulfilled m -> produces s m.
Proof.
  intros Hrq. induction s as [m|e|dep k IH]; intros c.
  - split; [reflexivity|]. split; [apply refreshed_refl|].
    intros m' Hm. injection Hm as <-. constructor.
  - split; [reflexivity|]. split; [apply refreshed_refl|].
    intros m' Hm. discriminate Hm.
  - cbn [interpret]. unfold bind. destruct (Hrq dep c) as [Hcalls Hcache].
    destruct (rq dep c) as [[r c1] t1].
    unfold events_of, cache_of, result_of in *. simpl in Hcalls, Hcache.
    destruct r as [d|e|]; simpl.
    + destruct (IH d c1) as (Hcalls' & Hcache' & Hm).
      destruct (interpret rq (k d) c1) as [[r2 c2] t2]. simpl in *.
      split; [rewrite invocations_app, Hcalls, Hcalls'; reflexivity|].
      split; [eapply refreshed_trans; eassumption|].
      intros m Hr. econstructor. apply Hm. exact Hr.
    + split; [exact Hcalls|]. split; [exact Hcache|]. intros m Hm. discriminate Hm.
    + split; [exact Hcalls|]. split; [exact Hcache|]. intros m Hm. discriminate Hm.
Qed.

Lemma require_with_sound rq :
  (forall p c, invocations (events_of (rq p c)) = []
               /\ refreshed disk c (cache_of (rq p c))) ->
  forall p c, invocations (events_of (require_with pf disk rq p c)) = []
              /\ refreshed disk c (cache_of (require_with pf disk rq p c)).
Proof.
  intros Hrq p c. unfold require_with. run_monad.
  destruct (resolve_file pf disk p) as [f| |e];
    try (split; [reflexivity|apply refreshed_refl]).
  cbv beta iota. destruct (c !! f) as [cached|];
    [split; [reflexivity|apply refreshed_refl]|].
  destruct (disk !! f) as [[t es|t script]|] eqn:Hfile;
    try (split; [reflexivity|apply refreshed_refl]).
  destruct (interpret_sound rq script Hrq c) as (Hcalls & Hcache & Hm).
  destruct (interpret rq script c) as [[r c1] t1].
  unfold events_of, cache_of, result_of in *. simpl in Hcalls, Hcache, Hm.
  destruct r as [m|e|]; simpl.
  - split; [rewrite app_nil_r; exact Hcalls|].
    eapply refreshed_trans; [exact Hcache|].
    eapply refreshed_insert; [exact Hfile|]. apply Hm. reflexivity.
  - split; [exact Hcalls|exact Hcache].
  - split; [exact Hcalls|exact Hcache].
Qed.

Lemma require_at_sound depth p c :
  invocations (events_of (require_at pf disk depth p c)) = []
  /\ refreshed disk c (cache_of (require_at pf disk depth p c)).
Proof.
  revert p c. induction depth as [|depth IH]; intros p c;
    rewrite require_at_unfold; apply require_with_sound.
  - intros p' c'. split; [reflexivity|apply refreshed_refl].
  - exact IH.
Qed.

(** The fresh load calls no exported function, and refreshes the cache. *)
Lemma require_fresh_sound p c :
  invocations (events_of (require_fresh pf disk p c)) = []
  /\ refreshed disk c (cache_of (require_fresh pf disk p c)).
Proof.
  unfold require_fresh, require.
  cbv [bind require_resolve cache_delete read_cache write_cache emit ret throw].
  destruct (resolve_file pf disk p) as [f| |e];
    try (split; [reflexivity|apply refreshed_refl]).
  cbv beta iota.
  destruct (require_at_sound (stack_limit pf) p (delete f c)) as [Hcalls Hcache].
  destruct (require_at pf disk (stack_limit pf) p (delete f c)) as [[r c1] t1].
  unfold events_of, cache_of in *. simpl in *.
  split; [exact Hcalls|].
  eapply refreshed_trans; [apply refreshed_delete|exact Hcache].
Qed.

(** The fresh load looks at the cache only after the entry of the file is
    deleted from it. *)
Lemma require_fresh_own_entry p f c1 c2 :
  resolve_file pf disk p = Found f ->
  delete f c1 = delete f c2 ->
  require_fresh pf disk p c1 = require_fresh pf disk p c2.
Proof.
  intros Hf Hsame. unfold require_fresh.
  cbv [bind require_resolve cache_delete read_cache write_cache emit ret throw].
  rewrite Hf. cbv beta iota. rewrite Hsame. reflexivity.
Qed.


(** *** Rules for the primitives *)

Lemma always_require_fresh p (Q : settled module_exports -> list event -> Prop) :
  (forall r t, invocations t = [] -> Q r t) ->
  always (require_fresh pf disk p) Q.
Proof. intros H c. apply H. apply require_fresh_sound. Qed.

Lemma always_await_call f args (Q : settled value -> list event -> Prop) :
  (forall r, Q r [Invoke f args]) -> always (await_call pf f args) Q.
Proof. intros H c. apply H. Qed.

Lemma keeps_require_fresh p : keeps disk (require_fresh pf disk p).
Proof. intros c. apply require_fresh_sound. Qed.

Lemma keeps_await_call f args : keeps disk (await_call pf f args).
Proof. intros c. apply refreshed_refl. Qed.






(** *** The [try] block of the execution route *)



Lemma execute_unresolved p functionName q c :
  resolve_file pf disk p = NotFound ->
  execute pf disk p functionName q c =
    (reply_of (Rejected (module_not_found pf p)), c, [Resolve p]).
Proof.
  intros Hnone. unfold execute. run_monad. rewrite Hnone. reflexivity.
Qed.

Lemma execute_own_entry p functionName q t s c stale :
  disk !! p = Some (RegularFile t s) ->
  execute pf disk p functionName q (<[p := stale]> c)
    = execute pf disk p functionName q (delete p c).
Proof.
  intros Hfile. unfold execute, try_catch, bind.
  rewrite (require_fresh_own_entry p p (<[p := stale]> c) (delete p c));
    [reflexivity|exact (resolve_file_regular _ _ _ _ _ Hfile)|].
  rewrite delete_insert_eq, delete_delete_eq. reflexivity.
Qed.






Lemma matches_true component name :
  matches component name = true -> lowercase component = name.
Proof. unfold matches. apply bool_decide_eq_true_1. Qed.

(** Every route is one of seven handlers, each on the requests of its
    path pattern. *)
Lemma routes_all (P : M response -> Prop) req :
  P not_found_route ->
  (forall s next,
     segments req = [s] -> lowercase s = "manifest.json" ->
     P next -> P (manifest_route pf disk next)) ->
  (forall d provider file next,
     segments req = [d; provider; file] -> lowercase d = "dist" ->
     P next -> P (dist_file_route pf disk provider file next)) ->
  (forall provider functionName,
     segments req = [provider; functionName] ->
     P (function_route pf disk provider functionName (query req))) ->
  (forall provider s q,
     segments req = [provider; s; q] -> lowercase s = "search" ->
     P (search_route provider q)) ->
  (forall s, segments req = [s] -> lowercase s = "status" -> P (status_route pf disk)) ->
  (forall s, segments req = [s] -> lowercase s = "providers" ->
             P (providers_route pf disk)) ->
  (forall s, segments req = [s] -> lowercase s = "health" -> P (health_route pf)) ->
  P (first_match (setupRoutes pf disk) req).
Proof.
  intros Hlast Hmanifest Hdist Hfunction Hsearch Hstatus Hproviders Hhealth.
  apply first_match_all; [exact Hlast|].
  unfold setupRoutes, literal.
  repeat apply Forall_cons_2; try apply Forall_nil_2; intros h Hh next Hnext;
    destruct (segments req) as [|s1 [|s2 [|s3 [|s4 more]]]]; try discriminate Hh;
    try (match type of Hh with
         | (if matches ?x ?n then _ else _) = _ =>
             destruct (matches x n) eqn:Hname; [apply matches_true in Hname|discriminate Hh]
         end);
    injection Hh as <-; eauto.
Qed.




End Facts.

(** ** Requests through the application *)

Section Routes.

Variable pf : platform.
Variable disk : gmap string node.

(** Outside [/dist] the middleware passes every request on to the routes. *)
Lemma serve_elsewhere d rest q slash c :
  lowercase d <> "dist" ->
  serve pf disk (MakeRequest (d :: rest) q slash) c
    = first_match (setupRoutes pf disk) (MakeRequest (d :: rest) q slash) c.
Proof.
  intros Hdist. unfold serve, setupMiddleware. cbn [segments]. unfold matches.
  rewrite bool_decide_eq_false_2 by exact Hdist. unfold bind, ret.
  destruct (first_match _ _ c) as [[r c'] t]. reflexivity.
Qed.

Lemma routes_function provider functionName q slash :
  first_match (setupRoutes pf disk) (MakeRequest [provider; functionName] q slash)
    = function_route pf disk provider functionName q.
Proof. reflexivity. Qed.

Lemma routes_search provider s query q slash :
  lowercase provider <> "dist" -> lowercase s = "search" ->
  first_match (setupRoutes pf disk) (MakeRequest [provider; s; query] q slash)
    = search_route provider query.
Proof.
  intros Hdist Hsearch. cbv [setupRoutes first_match literal segments matches].
  rewrite bool_decide_eq_false_2 by exact Hdist.
  rewrite bool_decide_eq_true_2 by exact Hsearch. reflexivity.
Qed.

Lemma routes_manifest s q slash :
  lowercase s = "manifest.json" ->
  first_match (setupRoutes pf disk) (MakeRequest [s] q slash)
    = manifest_route pf disk not_found_route.
Proof.
  intros Hs. cbv [setupRoutes first_match literal segments matches].
  rewrite Hs. reflexivity.
Qed.

Lemma routes_status s q slash :
  lowercase s = "status" ->
  first_match (setupRoutes pf disk) (MakeRequest [s] q slash) = status_route pf disk.
Proof.
  intros Hs. cbv [setupRoutes first_match literal segments matches].
  rewrite Hs. reflexivity.
Qed.

Lemma routes_providers s q slash :
  lowercase s = "providers" ->
  first_match (setupRoutes pf disk) (MakeRequest [s] q slash) = providers_route pf disk.
Proof.
  intros Hs. cbv [setupRoutes first_match literal segments matches].
  rewrite Hs. reflexivity.
Qed.

Lemma reserved_lowercase provider :
  provider ∈ reserved -> lowercase provider = provider.
Proof.
  unfold reserved. intros H.
  repeat (apply elem_of_cons in H as [-> | H]; [reflexivity|]). inversion H.
Qed.

(** A request for a function of a provider is the execution route's, unless
    the provider spells [dist] in some letter case. *)
Lemma serve_function_route provider functionName q slash c :
  lowercase provider <> "dist" ->
  serve pf disk (MakeRequest [provider; functionName] q slash) c
    = function_route pf disk provider functionName q c.
Proof. intros Hdist. rewrite serve_elsewhere by exact Hdist. reflexivity. Qed.

(** Through the whole application, a reserved first component other than
    [dist] ends in the same 404 without any effect; under [dist] the static
    middleware looks at the disk first. *)
Lemma serve_reserved_provider provider functionName q c :
  provider ∈ reserved -> provider <> "dist" ->
  serve pf disk (Request [provider; functionName] q) c =
    (Fulfilled (Json 404 (VObj [("error", VStr "Not found")])), c, []).
Proof.
  intros Hreserved Hdist.
  rewrite serve_function_route by (rewrite reserved_lowercase; assumption).
  unfold function_route. rewrite decide_True by exact Hreserved. reflexivity.
Qed.

(** The search alias, for a provider that does not spell [dist]. *)
Lemma serve_search_alias provider query q c :
  lowercase provider <> "dist" ->
  serve pf disk (Request [provider; "search"; query] q) c =
    (Fulfilled (Redirect 302
       ("/" +:+ provider +:+ "/search?query=" +:+ encodeURIComponent query)),
     c, []).
Proof.
  intros Hdist. rewrite serve_elsewhere by exact Hdist.
  rewrite routes_search by (exact Hdist || reflexivity). reflexivity.
Qed.

(** *** The execution route *)


Lemma function_route_watch_alias provider q c :
  provider ∉ reserved ->
  disk !! path_join pf [distDir pf; provider; "watch.js"] = None ->
  function_route pf disk provider "watch" q c =
    match execute pf disk (path_join pf [distDir pf; provider; "stream.js"]) "watch" q c with
    | (r, c', t) =>
        (r, c', ExistsSync (path_join pf [distDir pf; provider; "watch.js"]) :: t)
    end.
Proof.
  intros Hfree Hfile. unfold function_route.
  rewrite decide_False by exact Hfree.
  cbv [bind existsSync emit ret]. change ("watch" +:+ ".js") with "watch.js".
  rewrite Hfile.
  cbn [negb]. cbv beta iota zeta. rewrite decide_True by reflexivity.
  destruct (execute _ _ _ _ _ c) as [[r c'] t]. reflexivity.
Qed.

(** A function other than [watch] whose file is missing: 404, with a body
    that names the function and the provider, after the one existence
    check. *)
Lemma function_route_missing provider functionName q c :
  provider ∉ reserved ->
  functionName <> "watch" ->
  disk !! path_join pf [distDir pf; provider; functionName +:+ ".js"] = None ->
  function_route pf disk provider functionName q c =
    (Fulfilled (Json 404 (VObj [("error",
        VStr ("Function " +:+ functionName +:+ " not found for " +:+ provider))])),
     c,
     [ExistsSync (path_join pf [distDir pf; provider; functionName +:+ ".js"])]).
Proof.
  intros Hfree Hname Hfile. unfold function_route.
  rewrite decide_False by exact Hfree.
  cbv [bind existsSync emit ret]. rewrite Hfile. cbn [negb]. cbv beta iota zeta.
  rewrite decide_False by exact Hname. reflexivity.
Qed.

(** [watch] with neither [watch.js] nor anything [require] would accept
    for [stream.js]: the fallback path is handed to [require.resolve]
    without an existence check, and the error it raises is answered by the
    [catch] with a 500. *)
Lemma function_route_watch_unresolved provider q c :
  provider ∉ reserved ->
  disk !! path_join pf [distDir pf; provider; "watch.js"] = None ->
  resolve_file pf disk (path_join pf [distDir pf; provider; "stream.js"]) = NotFound ->
  function_route pf disk provider "watch" q c =
    let stream_js := path_join pf [distDir pf; provider; "stream.js"] in
    (Fulfilled (Json 500 (VObj [("error", VStr (message (module_not_found pf stream_js)));
                                ("stack", VStr (stack (module_not_found pf stream_js)))])),
     c,
     [ExistsSync (path_join pf [distDir pf; provider; "watch.js"]); Resolve stream_js]).
Proof.
  intros Hfree Hwatch Hstream.
  rewrite function_route_watch_alias by assumption.
  rewrite execute_unresolved by exact Hstream. reflexivity.
Qed.


(** C4. A request whose provider is one of the reserved names
    manifest.json, dist, build, status, providers, health is answered by the
    execution route with 404, whatever the function name; the route makes no
    existence check and loads nothing (it has no effect at all) and leaves
    the cache as it was. *)
Theorem reserved_provider_rejected provider functionName q c :
  provider ∈ ["manifest.json"; "dist"; "build"; "status"; "providers"; "health"] ->
  function_route pf disk provider functionName q c =
    (Fulfilled (Json 404 (VObj [("error", VStr "Not found")])), c, []).
Proof.
  intros Hreserved. unfold function_route.
  rewrite decide_True by exact Hreserved. reflexivity.
Qed.




End Routes.

Section Claims.

Variable pf : platform.
Variable disk : gmap string node.

(** *** Reloading *)


(** *** The search alias *)

(** C9, as amended. For every provider whose name does not spell dist in
    any letter case (reserved or not), GET /{provider}/search/{query} is
    answered with a redirect to /{provider}/search?query={query}, the query
    URL-encoded; the request has no effect: nothing is looked up on disk, no
    module is loaded and no function is called. *)
Theorem search_path_redirects provider query q c :
  lowercase provider <> "dist" ->
  serve pf disk (Request [provider; "search"; query] q) c =
    (Fulfilled (Redirect 302
       ("/" +:+ provider +:+ "/search?query=" +:+ encodeURIComponent query)),
     c, []).
Proof. apply serve_search_alias. Qed.

(** *** Requests under /dist *)



(** *** Status and provider list *)

Lemma getAvailableProviders_run c :
  getAvailableProviders pf disk c =
    match disk !! distDir pf with
    | None => (Fulfilled [], c, [ExistsSync (distDir pf)])
    | Some (Directory _ entries) =>
        (Fulfilled (subdirectories entries), c,
         [ExistsSync (distDir pf); ReaddirSync (distDir pf)])
    | Some (RegularFile _ _) =>
        (Rejected (scandir_error pf (distDir pf)), c,
         [ExistsSync (distDir pf); ReaddirSync (distDir pf)])
    end.
Proof.
  unfold getAvailableProviders. run_monad.
  destruct (disk !! distDir pf) as [[t es|t s]|]; reflexivity.
Qed.

Lemma getBuildTime_run c :
  result_of (getBuildTime pf disk c) =
    Fulfilled (match disk !! path_join pf [currentDir pf; "manifest.json"] with
               | Some n => VStr (node_mtime n)
               | None => VNull
               end).
Proof.
  unfold getBuildTime. run_monad.
  destruct (disk !! path_join pf [currentDir pf; "manifest.json"]); reflexivity.
Qed.

Lemma providers_route_result c :
  result_of (providers_route pf disk c) =
    match disk !! distDir pf with
    | None => Fulfilled (Json 200 (VArr []))
    | Some (Directory _ entries) =>
        Fulfilled (Json 200 (VArr (map VStr (subdirectories entries))))
    | Some (RegularFile _ _) => Rejected (scandir_error pf (distDir pf))
    end.
Proof.
  unfold providers_route, bind. rewrite getAvailableProviders_run.
  destruct (disk !! distDir pf) as [[t es|t s]|]; reflexivity.
Qed.

Lemma status_route_result c :
  result_of (status_route pf disk c) =
    let buildTime :=
      match disk !! path_join pf [currentDir pf; "manifest.json"] with
      | Some n => VStr (node_mtime n)
      | None => VNull
      end in
    match disk !! distDir pf with
    | None => Fulfilled (Json 200 (status_body pf [] buildTime))
    | Some (Directory _ entries) =>
        Fulfilled (Json 200 (status_body pf (subdirectories entries) buildTime))
    | Some (RegularFile _ _) => Rejected (scandir_error pf (distDir pf))
    end.
Proof.
  pose proof (getBuildTime_run c) as Hbuild.
  unfold status_route, bind. rewrite getAvailableProviders_run.
  destruct (disk !! distDir pf) as [[t es|t s]|]; [|reflexivity|];
    destruct (getBuildTime pf disk c) as [[rb cb] tb];
    unfold result_of in Hbuild; simpl in Hbuild; subst rb; reflexivity.
Qed.

Lemma serve_status s q slash c :
  lowercase s = "status" ->
  serve pf disk (MakeRequest [s] q slash) c = status_route pf disk c.
Proof.
  intros Hs. rewrite serve_elsewhere by (rewrite Hs; discriminate).
  rewrite routes_status by exact Hs. reflexivity.
Qed.

Lemma serve_providers s q slash c :
  lowercase s = "providers" ->
  serve pf disk (MakeRequest [s] q slash) c = providers_route pf disk c.
Proof.
  intros Hs. rewrite serve_elsewhere by (rewrite Hs; discriminate).
  rewrite routes_providers by exact Hs. reflexivity.
Qed.

Lemma serve_manifest s q slash c :
  lowercase s = "manifest.json" ->
  serve pf disk (MakeRequest [s] q slash) c = manifest_route pf disk not_found_route c.
Proof.
  intros Hs. rewrite serve_elsewhere by (rewrite Hs; discriminate).
  rewrite routes_manifest by exact Hs. reflexivity.
Qed.

(** C10, as amended. GET /providers and GET /status answer, with status
    200, when the build outputs are missing:
    - without a module root, /providers is the empty array and /status
      reports 0 providers and an empty provider list;
    - with a module root that is a directory, the names listed and counted
      are those of its entries that are directories;
    - without a manifest, the build time /status reports is null, provided
      the module root is absent or a directory. *)
Theorem status_and_providers_total q c :
  let providers := result_of (serve pf disk (Request ["providers"] q) c) in
  let status := result_of (serve pf disk (Request ["status"] q) c) in
  (disk !! distDir pf = None ->
     providers = Fulfilled (Json 200 (VArr []))
     /\ exists buildTime, status = Fulfilled (Json 200
          (VObj [("status", VStr "running"); ("port", port pf);
                 ("providers", VNum 0); ("providerList", VArr []);
                 ("buildTime", buildTime)])))
  /\ (forall t entries, disk !! distDir pf = Some (Directory t entries) ->
        providers = Fulfilled (Json 200 (VArr (map VStr (subdirectories entries))))
        /\ (forall name, name ∈ subdirectories entries -> Dirent name true ∈ entries)
        /\ exists buildTime, status = Fulfilled (Json 200
             (status_body pf (subdirectories entries) buildTime)))
  /\ (disk !! path_join pf [currentDir pf; "manifest.json"] = None ->
      (forall t s, disk !! distDir pf <> Some (RegularFile t s)) ->
      exists names, status = Fulfilled (Json 200 (status_body pf names VNull))).
Proof.
  intros providers status. subst providers status.
  rewrite serve_providers, serve_status by reflexivity.
  rewrite providers_route_result, status_route_result. cbv zeta.
  split; [|split].
  - intros ->. split; [reflexivity|]. eexists. reflexivity.
  - intros t entries ->. split; [reflexivity|]. split.
    + intros name Hname. unfold subdirectories in Hname.
      apply list_elem_of_fmap in Hname as ([n d] & -> & Hin).
      apply list_elem_of_filter in Hin as [Hdir Hin].
      simpl in Hdir. subst d. exact Hin.
    + eexists. reflexivity.
  - intros Hmanifest Hroot. rewrite Hmanifest.
    destruct (disk !! distDir pf) as [[t es|t s]|].
    + eexists. reflexivity.
    + exfalso. exact (Hroot t s eq_refl).
    + exists []. reflexivity.
Qed.

End Claims.

(** ** The properties on the concrete installation *)

(** C1. GET /ghost/watch where the provider has neither watch.js nor
    stream.js: the missing file is not answered with the 404 that the same
    request gets for any other function name, but with the 500 of the
    [catch], carrying the message of [require.resolve]. *)
Theorem watch_without_stream_is_500 :
("ghost" ∉ reserved)
  /\ demo_disk !! "/srv/vega/dist/ghost/watch.js" = None
  /\ demo_disk !! "/srv/vega/dist/ghost/stream.js" = None
  /\ function_route demo_platform demo_disk "ghost" "watch" [] ∅ =
       (Fulfilled (Json 500 (VObj
          [("error", VStr "Cannot find module '/srv/vega/dist/ghost/stream.js'");
           ("stack", VStr "Error: MODULE_NOT_FOUND")])),
        ∅,
        [ExistsSync "/srv/vega/dist/ghost/watch.js";
         Resolve "/srv/vega/dist/ghost/stream.js"])
  /\ function_route demo_platform demo_disk "ghost" "stream" [] ∅ =
       (Fulfilled (Json 404 (VObj
          [("error", VStr "Function stream not found for ghost")])),
        ∅,
        [ExistsSync "/srv/vega/dist/ghost/stream.js"]).
Proof.
  split; [by_computation|]. repeat split; vm_compute; reflexivity.
Qed.


Lemma select_export_priority_witness :
  select_export catalog_module "catalog"
    = VArr [VObj [("title", VStr "Trending"); ("filter", VStr "/trending")]]
  /\ select_export catalog_module "catalog" = select_by_presence catalog_module "catalog".
Proof.
  split; [reflexivity|].
  apply (proj2 (proj2 (select_export_priority catalog_module "catalog"))).
  - repeat constructor.
  - intros k _. reflexivity.
Defined.

(** The names looked up reach more than the exports a module lists: on a
    plain export object the name [constructor] finds the inherited
    [Object], which is then what the request for it selects. *)
Example inherited_property_selected :
  let m := Module [("posts", VFun "posts")] [("constructor", VFun "Object")] in
  select_export m "constructor" = VFun "Object"
  /\ select_by_presence m "constructor" = VFun "posts".
Proof. split; reflexivity. Qed.

Lemma reserved_provider_rejected_witness :
  function_route demo_platform demo_disk "status" "catalog" [] ∅ =
    (Fulfilled (Json 404 (VObj [("error", VStr "Not found")])), ∅, []).
Proof.
  apply (reserved_provider_rejected demo_platform demo_disk "status" "catalog" [] ∅).
  by_computation.
Defined.





(** The first request left the old module in the cache, under the path of
    the file that was then edited. *)
Example old_module_left_in_cache :
  cache_after demo_platform [(demo_disk, Request ["demo"; "catalog"] [])] ∅
    !! "/srv/vega/dist/demo/catalog.js" = Some catalog_module.
Proof. vm_compute. reflexivity. Qed.

(** C8. GET /dist/demo/posts.js, where posts.js is a module of the provider
    demo: the static middleware, installed on /dist before the routes,
    answers with the raw file, so that the route written for this request is
    never run; run on it, that route loads the module and answers with its
    exports as JSON. *)
Theorem dist_module_file_streamed_raw :
  serve demo_platform demo_disk (Request ["dist"; "demo"; "posts.js"] []) ∅
    = (Fulfilled (RawFile "/srv/vega/dist/demo/posts.js"), ∅,
       [StatSync "/srv/vega/dist/demo/posts.js"])
  /\ result_of (dist_file_route demo_platform demo_disk "demo" "posts.js"
                  not_found_route ∅)
       = Fulfilled (Json 200 (VObj [("posts", VFun "posts")])).
Proof. split; vm_compute; reflexivity. Qed.

(** The route is reached for an existing module only off the plain URL:
    with a trailing slash the static middleware looks for an index page
    under the path, passes the request on, and the route answers with the
    exports as JSON. *)
Example dist_module_with_trailing_slash :
  result_of (serve demo_platform demo_disk
               (MakeRequest ["dist"; "demo"; "posts.js"] [] true) ∅)
    = Fulfilled (Json 200 (VObj [("posts", VFun "posts")])).
Proof. vm_compute. reflexivity. Qed.

(** The mount point itself and a provider directory are answered by the
    static middleware with a redirect to the same URL plus a slash. *)
Example dist_directories_redirect :
  result_of (serve demo_platform demo_disk (Request ["dist"] []) ∅)
    = Fulfilled (Redirect 301 "/dist/")
  /\ result_of (serve demo_platform demo_disk (Request ["dist"; "demo"] []) ∅)
    = Fulfilled (Redirect 301 "/dist/demo/").
Proof. split; vm_compute; reflexivity. Qed.

(** C9, as stated, fails: the provider name Dist is not one of the reserved
    names, yet the request falls under the mount point and the route of
    /dist, which match without regard to letter case: the disk is looked at
    and the answer is the 404 of a file that is not there, not a
    redirect. *)
Lemma search_under_capital_dist :
  ("Dist" ∉ reserved)
  /\ serve demo_platform demo_disk (Request ["Dist"; "search"; "x"] []) ∅ =
       (Fulfilled (Json 404 (VObj [("error", VStr "File not found: search/x");
                                   ("hint", VStr "Make sure to run build first")])),
        ∅,
        [StatSync "/srv/vega/dist/search/x";
         ExistsSync "/srv/vega/dist/search/x";
         ExistsSync "/srv/vega/dist/search/x.js";
         ExistsSync "/srv/vega/dist/search/x"]).
Proof. split; [by_computation|vm_compute; reflexivity]. Qed.

Lemma search_path_redirects_witness :
  serve demo_platform demo_disk (Request ["demo"; "search"; "a b&c"] []) ∅ =
    (Fulfilled (Redirect 302 "/demo/search?query=a%20b%26c"), ∅, []).
Proof.
  apply (search_path_redirects demo_platform demo_disk "demo" "a b&c" [] ∅).
  vm_compute. discriminate.
Defined.

(** C10, as stated, fails: with a regular file in place of the module
    root and no manifest, both endpoints throw instead of answering. *)
Lemma listing_fails_on_blocked_root :
  blocked_disk !! "/srv/vega/manifest.json" = None
  /\ result_of (serve demo_platform blocked_disk (Request ["status"] []) ∅)
       = Rejected (JsError "ENOTDIR: not a directory, scandir '/srv/vega/dist'"
                           "Error: ENOTDIR")
  /\ result_of (serve demo_platform blocked_disk (Request ["providers"] []) ∅)
       = Rejected (JsError "ENOTDIR: not a directory, scandir '/srv/vega/dist'"
                           "Error: ENOTDIR").
Proof. repeat split; vm_compute; reflexivity. Qed.

Lemma status_and_providers_total_witness :
  result_of (serve demo_platform ∅ (Request ["providers"] []) ∅)
    = Fulfilled (Json 200 (VArr []))
  /\ result_of (serve demo_platform demo_disk (Request ["providers"] []) ∅)
    = Fulfilled (Json 200 (VArr [VStr "demo"]))
  /\ exists names,
       result_of (serve demo_platform ∅ (Request ["status"] []) ∅)
         = Fulfilled (Json 200 (status_body demo_platform names VNull)).
Proof.
  split; [|split].
  - apply (proj1 (status_and_providers_total demo_platform ∅ [] ∅)). reflexivity.
  - apply (proj1 (proj2 (status_and_providers_total demo_platform demo_disk [] ∅))
             "2025-01-01T10:00:00.000Z"
             [Dirent "demo" true; Dirent "README.md" false]).
    vm_compute. reflexivity.
  - apply (proj2 (proj2 (status_and_providers_total demo_platform ∅ [] ∅))).
    + reflexivity.
    + intros t s. discriminate.
Defined.

(** The passed-over export, seen from outside: with catalog.js exporting
    null under [catalog] next to a default function, GET /demo/catalog calls
    that function and answers with what it resolves to. *)
Example null_catalog_calls_default :
  let disk := <["/srv/vega/dist/demo/catalog.js" :=
                  RegularFile "2025-01-02T08:00:00.000Z" (Loads null_catalog_module)]>
                demo_disk in
  let answer := serve demo_platform disk (Request ["demo"; "catalog"] []) ∅ in
  result_of answer
    = Fulfilled (Json 200 (VObj [("calledAs", VStr "load");
                                 ("with", VArr [providerContext])]))
  /\ invocations (events_of answer) = [Invoke "load" [providerContext]].
Proof. vm_compute. split; reflexivity. Qed.
(** * Further properties *)

(** ** The address announced by [start] *)

Lemma scan_addresses_find ifaces localIp :
  scan_addresses ifaces localIp =
    match List.find external_ipv4 ifaces with
    | Some iface => address iface
    | None => localIp
    end.
Proof.
  induction ifaces as [|iface rest IH]; simpl; [reflexivity|].
  destruct (external_ipv4 iface); [reflexivity|exact IH].
Qed.

Lemma find_app {A} (f : A -> bool) (l1 l2 : list A) :
  List.find f (l1 ++ l2) =
    match List.find f l1 with
    | Some x => Some x
    | None => List.find f l2
    end.
Proof.
  induction l1 as [|x l1 IH]; simpl; [reflexivity|].
  destruct (f x); [reflexivity|exact IH].
Qed.

Lemma find_some_elem {A} (f : A -> bool) (l : list A) x :
  List.find f l = Some x -> x ∈ l /\ f x = true.
Proof.
  induction l as [|y l IH]; simpl; [discriminate|].
  destruct (f y) eqn:E.
  - intros [= <-]. split; [left|exact E].
  - intros H. destruct (IH H) as [Hin Hf]. split; [right; exact Hin|exact Hf].
Qed.

(** X1. When no external IPv4 address is the string "localhost" itself, the
    two nested loops with their breaks announce the first external IPv4
    address in the order interfaces and their addresses are listed, and
    "localhost" when there is none. *)
Theorem local_ip_first_external interfaces :
  Forall (fun iface => external_ipv4 iface = true -> address iface <> "localhost")
         (all_addresses interfaces) ->
  local_ip interfaces =
    match List.find external_ipv4 (all_addresses interfaces) with
    | Some iface => address iface
    | None => "localhost"
    end.
Proof.
  unfold local_ip, all_addresses.
  induction interfaces as [|[name ifaces] rest IH]; simpl; [reflexivity|].
  intros Hnames. apply Forall_app in Hnames as [Hhere Hrest].
  rewrite scan_addresses_find, find_app.
  destruct (List.find external_ipv4 ifaces) as [iface|] eqn:E.
  - apply find_some_elem in E as [Hin Hext].
    rewrite Forall_forall in Hhere.
    rewrite bool_decide_eq_true_2 by (apply Hhere; assumption). reflexivity.
  - rewrite bool_decide_eq_false_2 by (intros H; apply H; reflexivity).
    apply IH. exact Hrest.
Qed.

(** X2. Whatever the interfaces, an address other than "localhost" is
    announced only if it is the address of an interface entry that is IPv4
    and not internal: a loopback or an IPv6 address is never announced. *)
Theorem local_ip_is_external interfaces :
  local_ip interfaces <> "localhost" ->
  exists iface, iface ∈ all_addresses interfaces
                /\ external_ipv4 iface = true
                /\ address iface = local_ip interfaces.
Proof.
  unfold local_ip, all_addresses.
  induction interfaces as [|[name ifaces] rest IH]; simpl; [congruence|].
  rewrite scan_addresses_find.
  destruct (List.find external_ipv4 ifaces) as [iface|] eqn:E.
  - apply find_some_elem in E as [Hin Hext].
    destruct (bool_decide (address iface <> "localhost")) eqn:D.
    + intros _. exists iface. split; [|split; [exact Hext|reflexivity]].
      apply elem_of_app. left. exact Hin.
    + apply bool_decide_eq_false_1 in D.
      assert (address iface = "localhost") as Hlocal.
      { destruct (decide (address iface = "localhost")); [assumption|contradiction]. }
      rewrite Hlocal. intros Hother. destruct (IH Hother) as (i & Hin' & Hext' & Haddr).
      exists i. split; [|split; assumption]. apply elem_of_app. right. exact Hin'.
  - rewrite bool_decide_eq_false_2 by (intros H; apply H; reflexivity).
    intros Hother. destruct (IH Hother) as (i & Hin' & Hext' & Haddr).
    exists i. split; [|split; assumption]. apply elem_of_app. right. exact Hin'.
Qed.

Lemma local_ip_first_external_witness :
  local_ip demo_interfaces = "192.168.1.20".
Proof.
  apply (local_ip_first_external demo_interfaces).
  repeat constructor; intros _; discriminate.
Defined.

Lemma local_ip_is_external_witness :
  exists iface, iface ∈ all_addresses demo_interfaces
                /\ external_ipv4 iface = true
                /\ address iface = local_ip demo_interfaces.
Proof.
  apply (local_ip_is_external demo_interfaces). vm_compute. discriminate.
Defined.

(** The precondition of the first-address property is a real one: an
    external IPv4 entry whose address reads "localhost" does not stop the
    outer loop, and a later interface wins. *)
Example local_ip_skips_localhost :
  local_ip [("a", [Iface "IPv4" false "localhost"]);
            ("b", [Iface "IPv4" false "10.0.0.7"])] = "10.0.0.7".
Proof. reflexivity. Qed.


(** ** Postconditions of handlers *)

(** Walks through a handler with the rules for the monad, splitting on
    every test; what is known of the rest of the chain is used where a
    handler passes the request on. *)
Ltac walk :=
  repeat first
    [ progress cbv beta iota
    | match goal with
      | H : always ?h _ |- always ?h _ =>
          eapply always_weaken; [exact H|cbv beta; intros ? ?]
      | |- always (require_fresh _ _ _) _ =>
          apply always_require_fresh; intros [?|?|] ? ?
      | |- always (await_call _ _ _) _ => apply always_await_call; intros [?|?|]
      | |- always (bind _ _) _ => apply always_bind
      | |- always (try_catch _ _) _ => apply always_try_catch
      | |- always (ret _) _ => apply always_ret
      | |- always (throw _) _ => apply always_throw
      | |- always (emit _) _ => apply always_emit
      | |- always (if ?b then _ else _) _ => destruct b eqn:?
      | |- always (match ?x with _ => _ end) _ => destruct x eqn:?
      end ].

(** Counts the calls in a trace made of literal events and of the traces
    of fresh loads. *)
Ltac calls :=
  rewrite ?invocations_app;
  repeat match goal with H : invocations _ = [] |- _ => rewrite H end;
  reflexivity.

Section Totality.

Variable pf : platform.
Variable disk : gmap string node.

(** *** Handlers that answer every error themselves *)


Lemma express_static_answers mount root rest slash :
  always (express_static pf disk mount root rest slash) answers.
Proof.
  unfold express_static, answers. walk; intros; discriminate.
Qed.




End Totality.

Section Introspection.

Variable pf : platform.
Variable disk : gmap string node.

(** *** The final 404 handler *)

(** X4. A GET request that no route matches is answered by the final
    handler with 404 and the list of endpoints, without any effect: the
    empty path; a single component that is, in no letter case, one of
    manifest.json, status, providers, health and dist (GET /build among
    them: the build endpoint is POST only); three components of which the
    first does not spell dist nor the second search; and four or more
    components of which the first does not spell dist. *)
Theorem unmatched_path_not_found req c :
  segments req = []
  \/ (exists s, segments req = [s]
                /\ lowercase s ∉ ["manifest.json"; "status"; "providers"; "health"; "dist"])
  \/ (exists a b x, segments req = [a; b; x]
                    /\ lowercase a <> "dist" /\ lowercase b <> "search")
  \/ (exists a b x y more, segments req = a :: b :: x :: y :: more
                           /\ lowercase a <> "dist") ->
  exists endpoints,
    serve pf disk req c =
      (Fulfilled (Json 404 (VObj [("error", VStr "Not found");
                                  ("availableEndpoints", VArr endpoints)])),
       c, []).
Proof.
  destruct req as [segs q slash]. cbn [segments].
  intros [-> | [(s & -> & Hs) | [(a & b & x & -> & Ha & Hb)
                                | (a & b & x & y & more & -> & Ha)]]];
    eexists.
  - reflexivity.
  - rewrite serve_elsewhere by set_solver.
    cbv [setupRoutes first_match literal segments matches].
    rewrite !bool_decide_eq_false_2 by set_solver. reflexivity.
  - rewrite serve_elsewhere by exact Ha.
    cbv [setupRoutes first_match literal segments matches].
    rewrite !bool_decide_eq_false_2 by assumption. reflexivity.
  - rewrite serve_elsewhere by exact Ha. reflexivity.
Qed.

(** *** Manifest, status and provider list *)

Lemma manifest_route_result next c :
  result_of (manifest_route pf disk next c) =
    let manifestPath := path_join pf [currentDir pf; "manifest.json"] in
    match disk !! manifestPath with
    | None => Fulfilled (Json 404
                (VObj [("error", VStr "Manifest not found. Run build first.")]))
    | Some n =>
        if hidden_path manifestPath then Rejected (sendfile_refused pf manifestPath)
        else match n with
             | RegularFile _ _ => Fulfilled (RawFile manifestPath)
             | Directory _ _ => result_of (next c)
             end
    end.
Proof.
  unfold manifest_route, sendFile. run_monad. cbv zeta.
  destruct (disk !! path_join pf [currentDir pf; "manifest.json"]) as [[t es|t s]|];
    try reflexivity;
    destruct (hidden_path _); try reflexivity.
  unfold result_of. destruct (next c) as [[r c'] t']. reflexivity.
Qed.

Lemma map_VStr_inj (l1 l2 : list string) : map VStr l1 = map VStr l2 -> l1 = l2.
Proof.
  revert l2. induction l1 as [|x l1 IH]; intros [|y l2]; simpl; try discriminate.
  - reflexivity.
  - intros [= -> H]. rewrite (IH _ H). reflexivity.
Qed.

(** X5. GET /status and GET /manifest.json read the same manifest path:
    whenever /status answers, the build time it reports is null exactly when
    /manifest.json answers 404 with the error "Manifest not found. Run build
    first."; and when the manifest is a regular file whose path has no hidden
    component, the build time is the modification time of the very file
    that /manifest.json sends. *)
Theorem build_time_follows_manifest q q' c c' names buildTime :
  result_of (serve pf disk (Request ["status"] q) c)
    = Fulfilled (Json 200 (status_body pf names buildTime)) ->
  let manifestPath := path_join pf [currentDir pf; "manifest.json"] in
  let manifest := result_of (serve pf disk (Request ["manifest.json"] q') c') in
  (buildTime = VNull <->
     manifest = Fulfilled (Json 404
                  (VObj [("error", VStr "Manifest not found. Run build first.")])))
  /\ (forall t s, disk !! manifestPath = Some (RegularFile t s) ->
                  hidden_path manifestPath = false ->
                  buildTime = VStr t
                  /\ manifest = Fulfilled (RawFile manifestPath)).
Proof.
  intros Hstatus manifestPath manifest. subst manifest.
  rewrite serve_status in Hstatus by reflexivity.
  rewrite serve_manifest by reflexivity.
  rewrite status_route_result in Hstatus. rewrite manifest_route_result.
  cbv zeta in Hstatus |- *. fold manifestPath in Hstatus |- *.
  assert (buildTime = match disk !! manifestPath with
                      | Some n => VStr (node_mtime n)
                      | None => VNull
                      end) as ->.
  { destruct (disk !! distDir pf) as [[t es|t s]|]; try discriminate;
      unfold status_body in Hstatus; congruence. }
  destruct (disk !! manifestPath) as [n|]; split.
  - split; [discriminate|].
    destruct (hidden_path manifestPath); [discriminate|].
    destruct n; discriminate.
  - intros t s [= ->] ->. split; reflexivity.
  - split; reflexivity.
  - discriminate.
Qed.

(** X6. GET /status and GET /providers list the same providers: whenever
    /providers answers with an array of names, /status answers too, with
    that array as its provider list and its length as the count. *)
Theorem status_agrees_with_providers q q' c c' names :
  result_of (serve pf disk (Request ["providers"] q) c)
    = Fulfilled (Json 200 (VArr (map VStr names))) ->
  exists buildTime,
    result_of (serve pf disk (Request ["status"] q') c')
      = Fulfilled (Json 200
          (VObj [("status", VStr "running");
                 ("port", port pf);
                 ("providers", VNum (Z.of_nat (length names)));
                 ("providerList", VArr (map VStr names));
                 ("buildTime", buildTime)])).
Proof.
  intros Hproviders.
  rewrite serve_providers in Hproviders by reflexivity.
  rewrite serve_status by reflexivity.
  rewrite providers_route_result in Hproviders. rewrite status_route_result.
  cbv zeta.
  destruct (disk !! distDir pf) as [[t es|t s]|]; try discriminate.
  - injection Hproviders as Hnames. apply map_VStr_inj in Hnames. subst names.
    eexists. reflexivity.
  - injection Hproviders as Hnames. destruct names; [|discriminate].
    eexists. reflexivity.
Qed.

End Introspection.

Section Execution.

Variable pf : platform.
Variable disk : gmap string node.



(** X9. A function other than watch whose file is missing, through the
    whole application, for a provider that is not reserved and does not
    spell dist in any letter case: 404 with a body that names the function
    and the provider, after a single existence check; nothing is resolved,
    loaded or called and the cache is left alone. *)
Theorem missing_function_not_found provider functionName q c :
  provider ∉ reserved ->
  lowercase provider <> "dist" ->
  functionName <> "watch" ->
  disk !! path_join pf [distDir pf; provider; functionName +:+ ".js"] = None ->
  serve pf disk (Request [provider; functionName] q) c =
    (Fulfilled (Json 404 (VObj [("error",
        VStr ("Function " +:+ functionName +:+ " not found for " +:+ provider))])),
     c,
     [ExistsSync (path_join pf [distDir pf; provider; functionName +:+ ".js"])]).
Proof.
  intros Hfree Hdist Hname Hnone.
  rewrite serve_function_route by exact Hdist.
  apply function_route_missing; assumption.
Qed.

(** *** The argument table *)

(** X10. Whatever the function name and the query, the provider context is
    the last argument, after at most two arguments taken from the query. *)
Theorem call_arguments_context_last functionName q :
  exists front, call_arguments functionName q = front ++ [providerContext]
                /\ length front <= 2.
Proof.
  unfold call_arguments.
  repeat case_decide;
    first [ exists []; split; [reflexivity|simpl; lia]
          | eexists [_]; split; [reflexivity|simpl; lia]
          | eexists [_; _]; split; [reflexivity|simpl; lia] ].
Qed.



End Execution.

Section Calls.

Variable pf : platform.
Variable disk : gmap string node.

(** *** Which requests call a provider function *)

Lemma function_route_calls provider functionName q :
  always (function_route pf disk provider functionName q)
    (fun _ t => invocations t = []
                \/ ((provider ∉ reserved)
                    /\ exists f, invocations t = [Invoke f (call_arguments functionName q)])).
Proof.
  unfold function_route, execute, existsSync.
  walk; first [ left; calls
              | right; split; [assumption|eexists; calls] ].
Qed.

Lemma routes_calls req :
  always (first_match (setupRoutes pf disk) req)
    (fun _ t => invocations t = []
                \/ exists provider functionName f,
                     segments req = [provider; functionName]
                     /\ (provider ∉ reserved)
                     /\ invocations t = [Invoke f (call_arguments functionName (query req))]).
Proof.
  apply routes_all.
  - unfold not_found_route. walk. left. reflexivity.
  - intros s next _ _ Hnext. unfold manifest_route, sendFile, existsSync.
    walk; first [ left; calls | intros Hsame; exact Hsame ].
  - intros d provider file next _ _ Hnext.
    unfold dist_file_route, sendFile, existsSync.
    walk; first [ left; calls | intros Hsame; exact Hsame ].
  - intros provider functionName Hreq.
    eapply always_weaken; [apply function_route_calls|].
    intros r t [Hnone | (Hfree & f & Hone)]; [left; exact Hnone|].
    right. exists provider, functionName, f. auto.
  - intros provider s q _ _. unfold search_route. walk. left. reflexivity.
  - intros s _ _.
    unfold status_route, getAvailableProviders, getBuildTime, existsSync,
      readdirSync, stat_mtime.
    walk; left; calls.
  - intros s _ _.
    unfold providers_route, getAvailableProviders, existsSync, readdirSync.
    walk; left; calls.
  - intros s _ _. unfold health_route. walk. left. reflexivity.
Qed.

(** X12. A request makes at most one call to a provider function, and it
    makes one only as a request for /{provider}/{functionName} with a
    provider that is not reserved; the arguments are then those of the
    table.  In particular nothing under /dist, and none of /manifest.json,
    /status, /providers, /health or the search alias, ever runs an exported
    function. *)
Theorem at_most_one_call req c :
  invocations (events_of (serve pf disk req c)) = []
  \/ exists provider functionName f,
       segments req = [provider; functionName]
       /\ (provider ∉ reserved)
       /\ invocations (events_of (serve pf disk req c))
            = [Invoke f (call_arguments functionName (query req))].
Proof.
  revert c.
  change (always (serve pf disk req)
            (fun _ t => invocations t = []
                        \/ exists provider functionName f,
                             segments req = [provider; functionName]
                             /\ (provider ∉ reserved)
                             /\ invocations t
                                  = [Invoke f (call_arguments functionName (query req))])).
  pose proof (routes_calls req) as Hroutes.
  unfold serve, setupMiddleware, express_static.
  walk; first [ left; calls | intros Hsame; exact Hsame ].
Qed.

(** *** Statuses *)

Lemma routes_known_status req :
  always (first_match (setupRoutes pf disk) req)
    (fun r _ => forall resp, r = Fulfilled resp -> known_status resp).
Proof.
  apply routes_all; intros;
    unfold manifest_route, dist_file_route, sendFile, function_route, execute,
      search_route, status_route, providers_route, health_route,
      not_found_route, getAvailableProviders, getBuildTime, existsSync,
      readdirSync, stat_mtime;
    walk;
    first [ intros Hsame; exact Hsame
          | intros resp Hresp; inversion Hresp; subst; simpl; tauto ].
Qed.

(** X13. Whatever the request and the disk, a JSON response carries the
    status 200, 404 or 500, and a redirect the status 301 or 302. *)
Theorem response_status_known req c resp :
  result_of (serve pf disk req c) = Fulfilled resp -> known_status resp.
Proof.
  revert c resp.
  change (always (serve pf disk req)
            (fun r _ => forall resp, r = Fulfilled resp -> known_status resp)).
  pose proof (routes_known_status req) as Hroutes.
  unfold serve, setupMiddleware, express_static.
  walk;
    first [ intros Hsame; exact Hsame
          | intros resp Hresp; inversion Hresp; subst; simpl; tauto ].
Qed.

(** *** A module under /dist that does not load *)


End Calls.

(** ** What a request does to the [require] cache *)

Section Cache.

Variable pf : platform.
Variable disk : gmap string node.

Lemma keeps_routes req : keeps disk (first_match (setupRoutes pf disk) req).
Proof.
  apply routes_all; intros;
    unfold manifest_route, dist_file_route, sendFile, function_route, execute,
      search_route, status_route, providers_route, health_route,
      not_found_route, getAvailableProviders, getBuildTime, existsSync,
      readdirSync, stat_mtime;
    keep; first [ apply keeps_require_fresh | apply keeps_await_call ].
Qed.

(** X15. Serving a request touches the [require] cache only to refresh
    it: every entry afterwards is the entry from before, or is gone, or is
    the module that the file at that path evaluates to now (for a file that
    requires other modules: with what it was given for them).  Hence a
    cache in which every entry matches the disk still does after the
    request. *)
Theorem cache_only_refreshed req c :
  refreshed disk c (cache_of (serve pf disk req c))
  /\ (coherent disk c -> coherent disk (cache_of (serve pf disk req c))).
Proof.
  assert (keeps disk (serve pf disk req)) as Hkeeps.
  { unfold serve, setupMiddleware, express_static. keep; apply keeps_routes. }
  split; [apply Hkeeps|]. apply refreshed_coherent, Hkeeps.
Qed.

End Cache.

(** ** The encoded query of the search alias *)

Lemma nat_of_ascii_bound (a : ascii) : nat_of_ascii a < 256.
Proof. destruct a as [[] [] [] [] [] [] [] []]; vm_compute; lia. Qed.

Lemma hex_digit_unreserved n : n < 16 -> uri_unreserved (hex_digit n) = true.
Proof. intros Hn. do 16 (destruct n as [|n]; [reflexivity|]). lia. Qed.

Lemma encoded_characters (s : string) :
  Forall (fun a => uri_unreserved a = true \/ a = "%"%char)
         (String.list_ascii_of_string (encodeURIComponent s)).
Proof.
  induction s as [|b s IH]; [constructor|].
  cbn [encodeURIComponent].
  destruct (uri_unreserved b) eqn:E; cbn [String.list_ascii_of_string].
  - constructor; [left; exact E|exact IH].
  - pose proof (nat_of_ascii_bound b) as Hb.
    constructor; [right; reflexivity|].
    constructor.
    { left. apply hex_digit_unreserved. apply Nat.Div0.div_lt_upper_bound. lia. }
    constructor; [|exact IH].
    left. apply hex_digit_unreserved. apply Nat.mod_upper_bound. lia.
Qed.

(** X16. The encoded query consists of unreserved characters and
    percent-escapes only: every character of it is a letter, a digit, one of
    - _ . ! ~ * ' ( ) or the percent sign, so that no & = ? # / or space of
    the query survives in the redirect location. *)
Theorem encoded_query_characters (s : string) (a : ascii) :
  a ∈ String.list_ascii_of_string (encodeURIComponent s) ->
  (uri_unreserved a = true \/ a = "%"%char)
  /\ a ∉ String.list_ascii_of_string "&=?#/ +".
Proof.
  intros Hin. pose proof (encoded_characters s) as Hall.
  rewrite Forall_forall in Hall. specialize (Hall a Hin).
  split; [exact Hall|].
  intros Hdelimiter. destruct Hall as [Hfree | ->].
  - repeat (apply elem_of_cons in Hdelimiter as [-> | Hdelimiter];
            [discriminate Hfree|]).
    inversion Hdelimiter.
  - repeat (apply elem_of_cons in Hdelimiter as [Heq | Hdelimiter];
            [discriminate Heq|]).
    inversion Hdelimiter.
Qed.

Lemma percent_decode_step (a : ascii) (s : string) :
  percent_decode (encodeURIComponent (String a s))
    = String a (percent_decode (encodeURIComponent s)).
Proof. destruct a as [[] [] [] [] [] [] [] []]; reflexivity. Qed.

Lemma percent_decode_encode (s : string) :
  percent_decode (encodeURIComponent s) = s.
Proof.
  induction s as [|a s IH]; [reflexivity|].
  rewrite percent_decode_step, IH. reflexivity.
Qed.

Lemma append_cancel (s a b : string) : s +:+ a = s +:+ b -> a = b.
Proof. induction s as [|x s IH]; simpl; [auto|]. intros [= H]. exact (IH H). Qed.

Section SearchAlias.

Variable pf : platform.
Variable disk : gmap string node.

(** X17. The search alias loses nothing of the query: for a provider that
    does not spell dist in any letter case, two requests
    /{provider}/search/{query} that are redirected to the same location
    carry the same query, whatever bytes it is made of. *)
Theorem search_alias_keeps_query provider query1 query2 q1 q2 c1 c2 :
  lowercase provider <> "dist" ->
  result_of (serve pf disk (Request [provider; "search"; query1] q1) c1)
    = result_of (serve pf disk (Request [provider; "search"; query2] q2) c2) ->
  query1 = query2.
Proof.
  intros Hdist. rewrite !serve_search_alias by exact Hdist.
  unfold result_of. cbn [fst]. intros Hsame. injection Hsame as Hlocation.
  do 3 apply append_cancel in Hlocation.
  rewrite <- (percent_decode_encode query1), <- (percent_decode_encode query2).
  rewrite Hlocation. reflexivity.
Qed.

(** X18. The search alias does not look at the reserved names: under a
    reserved first component other than dist the request is redirected all
    the same, and the location it is sent to is then answered 404 by the
    execution route, whatever the query. *)
Theorem search_alias_under_reserved_name provider query q q' c c' :
  provider ∈ reserved -> provider <> "dist" ->
  serve pf disk (Request [provider; "search"; query] q) c =
    (Fulfilled (Redirect 302
       ("/" +:+ provider +:+ "/search?query=" +:+ encodeURIComponent query)),
     c, [])
  /\ serve pf disk (Request [provider; "search"] q') c' =
       (Fulfilled (Json 404 (VObj [("error", VStr "Not found")])), c', []).
Proof.
  intros Hreserved Hdist. split.
  - apply serve_search_alias. rewrite reserved_lowercase; assumption.
  - apply serve_reserved_provider; assumption.
Qed.

End SearchAlias.

(** ** The order of middleware and routes *)

Section RouteOrder.

Variable pf : platform.
Variable disk : gmap string node.

(** X19. A request /dist/{name} with a single component under /dist that
    names nothing on disk falls through the static middleware and is stopped
    by the reserved-name check of the execution route: 404 with the plain
    error "Not found", and no file of a provider called dist is looked for
    or loaded. *)
Theorem lone_dist_component_not_found name q c :
  disk !! path_join pf [distDir pf; name] = None ->
  result_of (serve pf disk (Request ["dist"; name] q) c)
    = Fulfilled (Json 404 (VObj [("error", VStr "Not found")]))
  /\ cache_of (serve pf disk (Request ["dist"; name] q) c) = c
  /\ Forall (fun ev => ev = StatSync (path_join pf [distDir pf; name]))
            (events_of (serve pf disk (Request ["dist"; name] q) c)).
Proof.
  intros Hnone. unfold serve, setupMiddleware, express_static.
  cbn [segments trailing_slash].
  change (matches "dist" "dist") with true. cbv iota.
  destruct (existsb is_dotfile [name]).
  - repeat split. constructor.
  - cbv [bind emit ret]. rewrite Hnone. repeat split. repeat constructor.
Qed.

End RouteOrder.

(** ** The further properties on the concrete installation *)


Lemma unmatched_path_not_found_witness :
  exists endpoints,
    serve demo_platform demo_disk (Request ["build"] []) ∅ =
      (Fulfilled (Json 404 (VObj [("error", VStr "Not found");
                                  ("availableEndpoints", VArr endpoints)])),
       ∅, []).
Proof.
  apply (unmatched_path_not_found demo_platform demo_disk (Request ["build"] []) ∅).
  right. left. exists "build". split; [reflexivity|]. by_computation.
Defined.

Lemma build_time_follows_manifest_witness :
  (VStr "2025-01-01T10:00:01.000Z" = VNull <->
     result_of (serve demo_platform demo_disk (Request ["manifest.json"] []) ∅)
       = Fulfilled (Json 404
           (VObj [("error", VStr "Manifest not found. Run build first.")])))
  /\ (forall t s, demo_disk !! "/srv/vega/manifest.json" = Some (RegularFile t s) ->
        hidden_path "/srv/vega/manifest.json" = false ->
        VStr "2025-01-01T10:00:01.000Z" = VStr t
        /\ result_of (serve demo_platform demo_disk (Request ["manifest.json"] []) ∅)
           = Fulfilled (RawFile "/srv/vega/manifest.json")).
Proof.
  apply (build_time_follows_manifest demo_platform demo_disk [] [] ∅ ∅ ["demo"]
           (VStr "2025-01-01T10:00:01.000Z")).
  vm_compute. reflexivity.
Defined.

Lemma status_agrees_with_providers_witness :
  exists buildTime,
    result_of (serve demo_platform demo_disk (Request ["status"] []) ∅)
      = Fulfilled (Json 200
          (VObj [("status", VStr "running");
                 ("port", VNum 7860);
                 ("providers", VNum 1);
                 ("providerList", VArr [VStr "demo"]);
                 ("buildTime", buildTime)])).
Proof.
  apply (status_agrees_with_providers demo_platform demo_disk [] [] ∅ ∅ ["demo"]).
  vm_compute. reflexivity.
Defined.



Lemma missing_function_not_found_witness :
  serve demo_platform demo_disk (Request ["demo"; "meta"] []) ∅ =
    (Fulfilled (Json 404 (VObj [("error", VStr "Function meta not found for demo")])),
     ∅, [ExistsSync "/srv/vega/dist/demo/meta.js"]).
Proof.
  apply (missing_function_not_found demo_platform demo_disk "demo" "meta" [] ∅).
  - by_computation.
  - vm_compute. discriminate.
  - discriminate.
  - vm_compute. reflexivity.
Defined.


Lemma response_status_known_witness :
  known_status (Json 200 (VObj [("posts", VFun "posts")])).
Proof.
  apply (response_status_known demo_platform demo_disk
           (Request ["dist"; "demo"; "posts"] []) ∅).
  vm_compute. reflexivity.
Defined.


Lemma cache_only_refreshed_witness :
  coherent demo_disk
    (cache_of (serve demo_platform demo_disk (Request ["demo"; "catalog"] []) ∅)).
Proof.
  apply (proj2 (cache_only_refreshed demo_platform demo_disk
                  (Request ["demo"; "catalog"] []) ∅)).
  intros k m Hk. rewrite lookup_empty in Hk. discriminate Hk.
Defined.

Lemma encoded_query_characters_witness :
  (uri_unreserved "%"%char = true \/ "%"%char = "%"%char)
  /\ "%"%char ∉ String.list_ascii_of_string "&=?#/ +".
Proof.
  apply (encoded_query_characters "a b&c" "%"%char).
  vm_compute. repeat constructor.
Defined.

Lemma search_alias_keeps_query_witness : "a b&c" = "a b&c".
Proof.
  apply (search_alias_keeps_query demo_platform demo_disk "demo" "a b&c" "a b&c"
           [] [("page", VStr "2")] ∅ ∅).
  - vm_compute. discriminate.
  - reflexivity.
Defined.

Lemma search_alias_under_reserved_name_witness :
  serve demo_platform demo_disk (Request ["status"; "search"; "a b"] []) ∅ =
    (Fulfilled (Redirect 302 "/status/search?query=a%20b"), ∅, [])
  /\ serve demo_platform demo_disk (Request ["status"; "search"] [("query", VStr "a b")]) ∅ =
       (Fulfilled (Json 404 (VObj [("error", VStr "Not found")])), ∅, []).
Proof.
  apply (search_alias_under_reserved_name demo_platform demo_disk "status" "a b"
           [] [("query", VStr "a b")] ∅ ∅).
  - by_computation.
  - discriminate.
Defined.

Lemma lone_dist_component_not_found_witness :
  result_of (serve demo_platform demo_disk (Request ["dist"; "ghost"] []) ∅)
    = Fulfilled (Json 404 (VObj [("error", VStr "Not found")]))
  /\ cache_of (serve demo_platform demo_disk (Request ["dist"; "ghost"] []) ∅) = ∅
  /\ Forall (fun ev => ev = StatSync "/srv/vega/dist/ghost")
            (events_of (serve demo_platform demo_disk (Request ["dist"; "ghost"] []) ∅)).
Proof.
  apply (lone_dist_component_not_found demo_platform demo_disk "ghost" [] ∅).
  vm_compute. reflexivity.
Defined.
